(** * The alert decision and delivery pipeline

    A shallow embedding of [app/schemas.py], [app/storage.py],
    [app/rules.py], [app/notifier.py] and the [/score] handler of
    [app/main.py].

    Conventions of the embedding.
    - A Python [float] is a binary64 number: [PrimFloat.float], compared
      with the IEEE comparison [PrimFloat.ltb].
    - A naive [datetime] is an integer count of microseconds (its
      resolution); a [timedelta] is a difference of such counts.
    - [os.environ] is a finite map from names to strings.
    - A Python call either returns a value or raises: [outcome].
    - The Redis server, the clock, the TCP peer and the host's
      text-to-speech utility are outside the program. Their behaviour
      during one call is an explicit argument of the call. *)

From Stdlib Require Import ZArith String Ascii List Bool Lia Floats DecimalString.
From stdpp Require Import gmap strings.

Local Open Scope Z_scope.

(** ** Python values *)

Inductive exn : Type :=
| ValueError
| OverflowError
| RuntimeError
| SocketTimeout
| ConnectionError
| ProtocolError (msg : string)
| CalledProcessError
| TimeoutExpired
| FileNotFoundError
| OtherError
| HTTPException (status_code : Z).

Inductive outcome (A : Type) : Type :=
| Returned (a : A)
| Raised (e : exn).

Arguments Returned {A} a.
Arguments Raised {A} e.

Definition returns {A : Type} (o : outcome A) : Prop :=
  exists a, o = Returned a.

(** Truth value of a [str] or [bytes] object: empty is false. *)
Definition truthy (s : string) : bool :=
  match s with
  | EmptyString => false
  | String _ _ => true
  end.

(** Truth value of an [Optional[str]]. *)
Definition truthy_opt (o : option string) : bool :=
  match o with
  | Some s => truthy s
  | None => false
  end.

(** [needle in hay] on strings. *)
Fixpoint py_in (needle hay : string) : bool :=
  if String.prefix needle hay then true
  else match hay with
       | EmptyString => false
       | String _ hay' => py_in needle hay'
       end.

(** [s[-n:]] for a positive [n]: the last [n] characters, the whole
    string when it is shorter. *)
Fixpoint drop_chars (k : nat) (s : string) : string :=
  match k, s with
  | O, _ => s
  | S k', String _ s' => drop_chars k' s'
  | S _, EmptyString => EmptyString
  end.

Definition last_chars (n : nat) (s : string) : string :=
  drop_chars (String.length s - n)%nat s.

(** [os.getenv(name)] and [os.getenv(name, default)]. *)
Definition getenv (env : gmap string string) (name : string) : option string :=
  env !! name.

Definition getenv_default (env : gmap string string) (name dflt : string) : string :=
  default dflt (env !! name).

(** ** app/schemas.py *)

Record Factor : Type := {
  feature : string;
  impact : float;
}.

Record AlertData : Type := {
  alert_id : string;
  patient_token : string;
  risk : float;
  top_factors : list Factor;
  timestamp : string;
}.

Record ScoreResponse : Type := {
  resp_risk : float;
  resp_top_factors : list Factor;
  alerted : bool;
  resp_alert_id : option string;
}.

(** ** Library functions the program calls

    [int], [float], [datetime.isoformat], [datetime.fromisoformat],
    pydantic's [model_dump_json] and [model_validate_json] and
    [bytes.decode('utf-8', errors='ignore')] are not code of this
    repository. The development is parametric in them; [None] stands
    for a raised exception. *)

Class PyRuntime : Type := {
  py_int : string -> option Z;
  py_float : string -> option float;
  isoformat : Z -> string;
  fromisoformat : string -> option Z;
  model_dump_json : AlertData -> string;
  model_validate_json : string -> option AlertData;
  decode_ignore : string -> string;
}.

(** [timedelta(minutes=m)], in microseconds. The constructor raises
    [OverflowError] when the number of days leaves
    [-999999999 .. 999999999]. *)
Definition timedelta_minutes (m : Z) : option Z :=
  let days := m / 1440 in
  if (-999999999 <=? days) && (days <=? 999999999)
  then Some (m * 60000000)
  else None.

(** ** app/storage.py *)

(** The state a [Storage] object reaches: the data held by the Redis
    server behind [redis_client] ([None] when the object runs without a
    client), and the two dictionaries of the object. *)
Record Storage : Type := {
  redis_client : option (gmap string string);
  memory_store : gmap string AlertData;
  cooldowns : gmap string Z;
}.

Definition with_redis (db : gmap string string) (s : Storage) : Storage :=
  {| redis_client := Some db;
     memory_store := memory_store s;
     cooldowns := cooldowns s |}.

Definition with_memory_store (m : gmap string AlertData) (s : Storage) : Storage :=
  {| redis_client := redis_client s;
     memory_store := m;
     cooldowns := cooldowns s |}.

Definition with_cooldowns (c : gmap string Z) (s : Storage) : Storage :=
  {| redis_client := redis_client s;
     memory_store := memory_store s;
     cooldowns := c |}.

(** What one Redis command meets: the server answers, or the command
    raises (and has no effect on the server). *)
Inductive link : Type := Up | Down.

(** [Storage.__init__]. [probe] is what [redis.from_url] followed by
    [ping] meets: the server's data, or an exception. *)
Definition Storage_init (env : gmap string string)
    (probe : outcome (gmap string string)) : Storage :=
  {| redis_client :=
       if truthy_opt (getenv env "REDIS_URL") then
         match probe with
         | Returned db => Some db
         | Raised _ => None
         end
       else None;
     memory_store := ∅;
     cooldowns := ∅ |}.

Definition cooldown_key (patient_token : string) : string :=
  "cooldown:" +:+ patient_token.

Definition alert_key (alert_id : string) : string :=
  "alert:" +:+ alert_id.

Section Store.
Context `{PyRuntime}.
Variable env : gmap string string.

(** The local [cooldown_minutes] of [in_cooldown]: [None] when [int]
    raises. *)
Definition cooldown_minutes : option Z :=
  py_int (getenv_default env "COOLDOWN_MINUTES" "30").

(** The local [risk_threshold] of [should_alert]: [None] when [float]
    raises. *)
Definition risk_threshold : option float :=
  py_float (getenv_default env "RISK_THRESHOLD" "0.80").

Definition in_cooldown (now : Z) (lk : link) (patient_token : string)
    (s : Storage) : outcome bool * Storage :=
  match cooldown_minutes with
  | None => (Raised ValueError, s)
  | Some minutes =>
    match redis_client s with
    | Some db =>
      match lk with
      | Down => (Returned false, s)
      | Up =>
        match db !! cooldown_key patient_token with
        | Some last_alert =>
          if truthy last_alert then
            match fromisoformat last_alert with
            | Some last_alert_time =>
              match timedelta_minutes minutes with
              | Some window =>
                  (Returned (now - last_alert_time <? window), s)
              | None => (Returned false, s)
              end
            | None => (Returned false, s)
            end
          else (Returned false, s)
        | None => (Returned false, s)
        end
      end
    | None =>
      match cooldowns s !! patient_token with
      | Some last_alert_time =>
        match timedelta_minutes minutes with
        | Some window => (Returned (now - last_alert_time <? window), s)
        | None => (Raised OverflowError, s)
        end
      | None => (Returned false, s)
      end
    end
  end.

Definition set_cooldown (now : Z) (lk : link) (patient_token : string)
    (s : Storage) : outcome unit * Storage :=
  match redis_client s with
  | Some db =>
    match lk with
    | Up =>
        (Returned tt,
         with_redis (<[cooldown_key patient_token := isoformat now]> db) s)
    | Down =>
        (Returned tt,
         with_cooldowns (<[patient_token := now]> (cooldowns s)) s)
    end
  | None =>
      (Returned tt,
       with_cooldowns (<[patient_token := now]> (cooldowns s)) s)
  end.

Definition save_alert (lk : link) (alert : AlertData)
    (s : Storage) : outcome unit * Storage :=
  match redis_client s with
  | Some db =>
    match lk with
    | Up =>
        (Returned tt,
         with_redis (<[alert_key (alert_id alert) := model_dump_json alert]> db) s)
    | Down =>
        (Returned tt,
         with_memory_store (<[alert_id alert := alert]> (memory_store s)) s)
    end
  | None =>
      (Returned tt,
       with_memory_store (<[alert_id alert := alert]> (memory_store s)) s)
  end.

Definition get_alert (lk : link) (alert_id : string)
    (s : Storage) : outcome (option AlertData) * Storage :=
  match redis_client s with
  | Some db =>
    match lk with
    | Up =>
      match db !! alert_key alert_id with
      | Some alert_data =>
        if truthy alert_data then
          match model_validate_json alert_data with
          | Some a => (Returned (Some a), s)
          | None => (Returned (memory_store s !! alert_id), s)
          end
        else (Returned None, s)
      | None => (Returned None, s)
      end
    | Down => (Returned (memory_store s !! alert_id), s)
    end
  | None => (Returned (memory_store s !! alert_id), s)
  end.

(** ** app/rules.py *)

Definition should_alert (now : Z) (lk : link) (risk : float)
    (patient_token : string) (s : Storage) : outcome bool * Storage :=
  match risk_threshold with
  | None => (Raised ValueError, s)
  | Some threshold =>
    if (risk <? threshold)%float then (Returned false, s)
    else
      match in_cooldown now lk patient_token s with
      | (Returned true, s') => (Returned false, s')
      | (Returned false, s') => (Returned true, s')
      | (Raised e, s') => (Raised e, s')
      end
  end.

End Store.

(** ** Entries of the store

    What the store holds under one key, wherever it holds it: the value
    on the Redis server (layout [alert:<id>] and [cooldown:<token>]) and
    the value in the object's dictionary. *)

Definition redis_get (s : Storage) (key : string) : option string :=
  match redis_client s with
  | Some db => db !! key
  | None => None
  end.

Definition alert_entry (s : Storage) (alert_id : string)
    : option string * option AlertData :=
  (redis_get s (alert_key alert_id), memory_store s !! alert_id).

Definition cooldown_entry (s : Storage) (patient_token : string)
    : option string * option Z :=
  (redis_get s (cooldown_key patient_token), cooldowns s !! patient_token).

(** A call on the store by any of its callers, and a sequence of them. *)
Inductive store_call : Type :=
| DoInCooldown (now : Z) (lk : link) (patient_token : string)
| DoSetCooldown (now : Z) (lk : link) (patient_token : string)
| DoSaveAlert (lk : link) (alert : AlertData)
| DoGetAlert (lk : link) (alert_id : string).


Section Calls.
Context `{PyRuntime}.
Variable env : gmap string string.

Definition run_call (c : store_call) (s : Storage) : Storage :=
  match c with
  | DoInCooldown now lk t => snd (in_cooldown env now lk t s)
  | DoSetCooldown now lk t => snd (set_cooldown now lk t s)
  | DoSaveAlert lk a => snd (save_alert lk a s)
  | DoGetAlert lk i => snd (get_alert lk i s)
  end.

Fixpoint run_calls (cs : list store_call) (s : Storage) : Storage :=
  match cs with
  | [] => s
  | c :: cs' => run_calls cs' (run_call c s)
  end.

End Calls.

(** ** State and exceptions

    A computation over a state [S] that returns or raises. The store
    operations above already have this shape; the notifier and the
    request handler are written with its [bind]. *)

Definition StateExn (S A : Type) : Type := S -> outcome A * S.

Definition ret {S A : Type} (a : A) : StateExn S A :=
  fun s => (Returned a, s).

Definition raise {S A : Type} (e : exn) : StateExn S A :=
  fun s => (Raised e, s).

Definition bind {S A B : Type} (c : StateExn S A) (k : A -> StateExn S B)
    : StateExn S B :=
  fun s =>
    match c s with
    | (Returned a, s') => k a s'
    | (Raised e, s') => (Raised e, s')
    end.

(** [try: body / except Exception as e: handler e]. *)
Definition try_except {S A : Type} (body : StateExn S A)
    (handler : exn -> StateExn S A) : StateExn S A :=
  fun s =>
    match body s with
    | (Returned a, s') => (Returned a, s')
    | (Raised e, s') => handler e s'
    end.

(** [try: body / finally: cleanup], for a cleanup that does not raise. *)
Definition try_finally {S A : Type} (body : StateExn S A)
    (cleanup : S -> S) : StateExn S A :=
  fun s =>
    match body s with
    | (o, s') => (o, cleanup s')
    end.

Declare Scope py_scope.
Delimit Scope py_scope with py.
Notation "x <- c ;; k" := (bind c (fun x => k))
  (at level 100, c at next level, right associativity) : py_scope.
Notation "c ;;; k" := (bind c (fun _ => k))
  (at level 100, right associativity) : py_scope.

(** ** app/notifier.py *)

Inductive log_level : Type := INFO | WARNING | ERROR.

(** What a notifier call does to the outside: socket operations, the
    text-to-speech command and log records. A log record is its level,
    its formatted text and, when the text ends with an interpolated
    exception, that exception. *)
Inductive action : Type :=
| SockOpen
| SockConnect (host : string) (port : Z)
| SockSend (data : string)
| SockClose
| Run (argv : list string)
| Log (level : log_level) (text : string) (exc : option exn).

Inductive recv_result : Type :=
| Chunk (data : string)
| RecvRaises (e : exn).

(** The TCP peer during one call: whether [connect] raises, which of the
    successive [send] calls raise (later ones succeed), and what the
    successive [recv] calls meet. A [Chunk] of no bytes is the peer
    closing the connection. Past the end of the script the peer stays
    silent and [recv] raises [socket.timeout]. *)
Record Peer : Type := {
  connect_error : option exn;
  send_errors : list (option exn);
  recv_script : list recv_result;
}.

(** The machine the notifier runs on. [say_error] is what
    [subprocess.run(["say", ...], timeout=10, check=True)] raises, if
    anything. *)
Record Host : Type := {
  platform_system : string;
  say_error : option exn;
  peer : Peer;
}.

(** The state of one call: what is left of the peer's script, and the
    actions performed so far. *)
Record Wire : Type := {
  pending_sends : list (option exn);
  pending_recvs : list recv_result;
  journal : list action;
}.

Definition wire_of (h : Host) : Wire :=
  {| pending_sends := send_errors (peer h);
     pending_recvs := recv_script (peer h);
     journal := [] |}.

Definition record_action (a : action) (w : Wire) : Wire :=
  {| pending_sends := pending_sends w;
     pending_recvs := pending_recvs w;
     journal := journal w ++ [a] |}.

Definition emit (a : action) : StateExn Wire unit :=
  fun w => (Returned tt, record_action a w).

Definition sock_connect (h : Host) (host : string) (port : Z)
    : StateExn Wire unit :=
  fun w =>
    match connect_error (peer h) with
    | Some e => (Raised e, record_action (SockConnect host port) w)
    | None => (Returned tt, record_action (SockConnect host port) w)
    end.

Definition sock_send (data : string) : StateExn Wire unit :=
  fun w =>
    let w' := fun rest =>
      {| pending_sends := rest;
         pending_recvs := pending_recvs w;
         journal := journal w ++ [SockSend data] |} in
    match pending_sends w with
    | Some e :: rest => (Raised e, w' rest)
    | None :: rest => (Returned tt, w' rest)
    | [] => (Returned tt, w' [])
    end.

Definition CRLF : string := String "013" (String "010" EmptyString).

(** The loop of [_read_ami_response], on the bytes received so far and
    the peer's remaining script. *)
Fixpoint recv_loop (response : string) (pending : list recv_result)
    : outcome string * list recv_result :=
  match pending with
  | [] => (Raised SocketTimeout, [])
  | RecvRaises e :: rest => (Raised e, rest)
  | Chunk data :: rest =>
      if truthy data then
        let response := response +:+ data in
        if py_in (CRLF +:+ CRLF) response then (Returned response, rest)
        else recv_loop response rest
      else (Returned response, rest)
  end.

(** Python renders [None] as the text [None] in an f-string. *)
Definition fmt_opt (o : option string) : string := default "None" o.

(** [x or dflt] on an [Optional[str]]. *)
Definition or_else (o : option string) (dflt : string) : string :=
  match o with
  | Some s => if truthy s then s else dflt
  | None => dflt
  end.

(** The message rule of the dispatcher, as the specification words it:
    a fixed sentence around the last six characters of the alert id. *)
Definition voice_sentence (alert_id : string) : string :=
  "High-risk cardiac score for case " +:+ last_chars 6 alert_id
  +:+ ". Check your secure portal.".

Definition is_socket_action (a : action) : bool :=
  match a with
  | SockOpen | SockConnect _ _ | SockSend _ | SockClose => true
  | Run _ | Log _ _ _ => false
  end.

Record VoIPNotifier : Type := {
  asterisk_host : option string;
  asterisk_port : Z;
  asterisk_user : option string;
  asterisk_pass : option string;
  alert_number : option string;
  ami_available : bool;
}.

Section Notifier.
Context `{PyRuntime}.

(** [VoIPNotifier.__init__]. *)
Definition VoIPNotifier_init (env : gmap string string)
    : outcome VoIPNotifier * list action :=
  match py_int (getenv_default env "ASTERISK_PORT" "5038") with
  | None => (Raised ValueError, [])
  | Some port =>
    let available :=
      truthy_opt (getenv env "ASTERISK_HOST")
      && truthy_opt (getenv env "ASTERISK_USER")
      && truthy_opt (getenv env "ASTERISK_PASS")
      && truthy_opt (getenv env "ALERT_CALL_NUMBER") in
    (Returned {| asterisk_host := getenv env "ASTERISK_HOST";
                 asterisk_port := port;
                 asterisk_user := getenv env "ASTERISK_USER";
                 asterisk_pass := getenv env "ASTERISK_PASS";
                 alert_number := getenv env "ALERT_CALL_NUMBER";
                 ami_available := available |},
     if available then []
     else [Log WARNING
             "Asterisk AMI configuration incomplete, voice alerts will be simulated"
             None])
  end.

Definition _read_ami_response : StateExn Wire string :=
  fun w =>
    match recv_loop "" (pending_recvs w) with
    | (o, rest) =>
        (match o with
         | Returned response => Returned (decode_ignore response)
         | Raised e => Raised e
         end,
         {| pending_sends := pending_sends w;
            pending_recvs := rest;
            journal := journal w |})
    end.

Definition _simulate_voice_alert (self : VoIPNotifier) (h : Host)
    (alert : AlertData) : StateExn Wire bool :=
  try_except
    (let short_id := last_chars 6 (alert_id alert) in
     let message :=
       "High-risk cardiac score for case " +:+ short_id
       +:+ ". Check your secure portal." in
     (emit (Log INFO "📞 SIMULATED VOIP CALL" None) ;;;
      emit (Log INFO ("   📱 To: " +:+ or_else (alert_number self) "Unknown") None) ;;;
      emit (Log INFO ("   💬 Message: " +:+ message) None) ;;;
      (if String.eqb (platform_system h) "Darwin" then
         try_except
           (emit (Run ["say"; "-v"; "Alex"; "-r"; "150"; message]) ;;;
            match say_error h with
            | Some e => raise e
            | None => emit (Log INFO "   ✅ Voice message played successfully" None)
            end)
           (fun e =>
              match e with
              | CalledProcessError | TimeoutExpired | FileNotFoundError =>
                  emit (Log INFO "   📢 Text-to-speech not available" None)
              | _ => raise e
              end)
       else
         emit (Log INFO "   📢 Text-to-speech not available on this system" None)) ;;;
      ret true)%py)
    (fun e =>
       (emit (Log ERROR "Voice simulation failed: " (Some e)) ;;;
        ret false)%py).

Definition notify_voice (self : VoIPNotifier) (h : Host)
    (alert : AlertData) : StateExn Wire bool :=
  if negb (ami_available self) then _simulate_voice_alert self h alert
  else
    try_except
      (let short_id := last_chars 6 (alert_id alert) in
       let message :=
         "High-risk cardiac score for case " +:+ short_id
         +:+ ". Check your secure portal." in
       (emit SockOpen ;;;
        try_finally
          (sock_connect h (fmt_opt (asterisk_host self)) (asterisk_port self) ;;;
           response <- _read_ami_response ;;
           (if negb (String.prefix "Asterisk" response)
            then raise (ProtocolError "Invalid AMI response")
            else ret tt) ;;;
           let login_cmd :=
             "Action: Login" +:+ CRLF
             +:+ "Username: " +:+ fmt_opt (asterisk_user self) +:+ CRLF
             +:+ "Secret: " +:+ fmt_opt (asterisk_pass self) +:+ CRLF
             +:+ CRLF in
           sock_send login_cmd ;;;
           response <- _read_ami_response ;;
           (if negb (py_in "Success" response)
            then raise (ProtocolError "AMI login failed")
            else ret tt) ;;;
           let originate_cmd :=
             "Action: Originate" +:+ CRLF
             +:+ "Channel: SIP/" +:+ fmt_opt (alert_number self) +:+ CRLF
             +:+ "Application: Playback" +:+ CRLF
             +:+ "Data: " +:+ message +:+ CRLF
             +:+ "Async: true" +:+ CRLF +:+ CRLF in
           sock_send originate_cmd ;;;
           response <- _read_ami_response ;;
           if py_in "Success" response then
             emit (Log INFO
                     ("Voice alert sent successfully for case " +:+ alert_id alert)
                     None) ;;;
             ret true
           else
             emit (Log ERROR ("AMI Originate failed: " +:+ response) None) ;;;
             ret false)
          (record_action SockClose))%py)
      (fun e =>
         (emit (Log ERROR "Voice alert failed: " (Some e)) ;;;
          ret false)%py).

End Notifier.

(** ** app/main.py: the [/score] handler *)

Record ScoreRequest : Type := {
  patient_ref_token : string;
  features : gmap string float;
}.

(** The calls the handler makes on the store's writers and on the
    notifier, in the order it makes them. A notifier call is recorded
    with everything it did and its result. *)
Inductive call : Type :=
| CallSaveAlert (alert : AlertData)
| CallSetCooldown (patient_token : string)
| CallNotifyVoice (alert : AlertData) (did : list action) (result : outcome bool).

(** The process serving requests: the module-level [storage] object and
    the calls made so far. *)
Record Process : Type := {
  storage : Storage;
  history : list call;
}.

(** Everything outside the program that one request meets: the loaded
    model with its explainer, [uuid.uuid4().hex], the three readings of
    [datetime.now()], the state of the Redis link at each of the three
    store calls, and the notifier's host. *)
Record Surroundings : Type := {
  scorer : gmap string float -> outcome (float * list Factor);
  uuid_hex : string;
  clock_check : Z;
  clock_stamp : Z;
  clock_cooldown : Z;
  link_check : link;
  link_save : link;
  link_cooldown : link;
  host : Host;
}.

Definition lift_outcome {S A : Type} (o : outcome A) : StateExn S A :=
  fun s => (o, s).

(** A store operation run on the process's [storage], recorded as [mark]. *)
Definition on_storage {A : Type} (mark : list call) (c : StateExn Storage A)
    : StateExn Process A :=
  fun p =>
    match c (storage p) with
    | (o, s') => (o, {| storage := s'; history := history p ++ mark |})
    end.

Section Handler.
Context `{PyRuntime}.
Variable env : gmap string string.
Variable notifier : VoIPNotifier.

Definition call_notify_voice (h : Host) (alert : AlertData)
    : StateExn Process bool :=
  fun p =>
    match notify_voice notifier h alert (wire_of h) with
    | (o, w) =>
        (o, {| storage := storage p;
               history := history p ++ [CallNotifyVoice alert (journal w) o] |})
    end.

Definition score_patient (w : Surroundings) (request : ScoreRequest)
    : StateExn Process ScoreResponse :=
  try_except
    (scored <- lift_outcome (scorer w (features request)) ;;
     let risk_prob := fst scored in
     let factors := snd scored in
     alerted <- on_storage []
                  (should_alert env (clock_check w) (link_check w)
                     risk_prob (patient_ref_token request)) ;;
     if alerted : bool then
       let alert_id := "alrt_" +:+ String.substring 0 8 (uuid_hex w) in
       let alert_data :=
         {| alert_id := alert_id;
            patient_token := patient_ref_token request;
            risk := risk_prob;
            top_factors := factors;
            timestamp := isoformat (clock_stamp w) |} in
       on_storage [CallSaveAlert alert_data]
         (save_alert (link_save w) alert_data) ;;;
       on_storage [CallSetCooldown (patient_ref_token request)]
         (set_cooldown (clock_cooldown w) (link_cooldown w)
            (patient_ref_token request)) ;;;
       call_notify_voice (host w) alert_data ;;;
       ret {| resp_risk := risk_prob;
              resp_top_factors := factors;
              alerted := alerted;
              resp_alert_id := Some alert_id |}
     else
       ret {| resp_risk := risk_prob;
              resp_top_factors := factors;
              alerted := alerted;
              resp_alert_id := None |})%py
    (fun _ => raise (HTTPException 500)).

End Handler.

(** ** A runtime and data to run the model on

    Stand-ins for the library functions, enough to evaluate the
    definitions above on concrete inputs: a decimal reader for [int], a
    table for [float], instants written as their decimal count of
    microseconds, and a codec that knows one record. *)

Set Warnings "-inexact-float".

Definition fixture_alert : AlertData :=
  {| alert_id := "test_alert_12345678";
     patient_token := "test_patient_123";
     risk := 0.85%float;
     top_factors :=
       [ {| feature := "age"; impact := 0.15%float |};
         {| feature := "cp"; impact := 0.12%float |};
         {| feature := "oldpeak"; impact := 0.10%float |} ];
     timestamp := "2024-01-01T12:00:00" |}.

Definition fixture_int (s : string) : option Z :=
  if truthy s then option_map Z.of_int (NilEmpty.int_of_string s) else None.

Definition fixture_float (s : string) : option float :=
  if String.eqb s "0.80" then Some 0.80%float
  else if String.eqb s "0.5" then Some 0.5%float
  else None.

Definition fixture_dump (a : AlertData) : string :=
  "{" +:+ alert_id a +:+ "|" +:+ patient_token a +:+ "|" +:+ timestamp a +:+ "}".

#[local] Instance fixture_runtime : PyRuntime :=
  {| py_int := fixture_int;
     py_float := fixture_float;
     isoformat := fun t => NilZero.string_of_int (Z.to_int t);
     fromisoformat := fixture_int;
     model_dump_json := fixture_dump;
     model_validate_json :=
       fun s => if String.eqb s (fixture_dump fixture_alert)
                then Some fixture_alert else None;
     decode_ignore := fun b => b |}.

Definition minute : Z := 60000000.

(** A store without a Redis client, and one with a client on an empty
    server. *)
Definition fallback_store : Storage :=
  {| redis_client := None; memory_store := ∅; cooldowns := ∅ |}.

Definition durable_store : Storage :=
  {| redis_client := Some ∅; memory_store := ∅; cooldowns := ∅ |}.

(** A notifier with the four settings present, and one without any. *)
Definition ami_notifier : VoIPNotifier :=
  {| asterisk_host := Some "pbx.example";
     asterisk_port := 5038;
     asterisk_user := Some "admin";
     asterisk_pass := Some "secret";
     alert_number := Some "1001";
     ami_available := true |}.

Definition bare_notifier : VoIPNotifier :=
  {| asterisk_host := None;
     asterisk_port := 5038;
     asterisk_user := None;
     asterisk_pass := None;
     alert_number := None;
     ami_available := false |}.

(** A peer that greets, accepts the login and then answers the
    Originate request with [originate_reply]. *)
Definition ami_peer (originate_reply : string) : Peer :=
  {| connect_error := None;
     send_errors := [];
     recv_script :=
       [ Chunk ("Asterisk Call Manager/5.0" +:+ CRLF);
         Chunk (CRLF +:+ CRLF);
         Chunk ("Response: Success" +:+ CRLF +:+ CRLF);
         Chunk (originate_reply +:+ CRLF +:+ CRLF) ] |}.

Definition silent_peer : Peer :=
  {| connect_error := None; send_errors := []; recv_script := [] |}.

Definition linux_host (p : Peer) : Host :=
  {| platform_system := "Linux"; say_error := None; peer := p |}.

Definition mac_host (say : option exn) : Host :=
  {| platform_system := "Darwin"; say_error := say; peer := silent_peer |}.

(** A scoring request, its surroundings (a model that scores 0.92 with
    three factors, a reachable server) and a process that has served
    nothing yet. *)
Definition fixture_request : ScoreRequest :=
  {| patient_ref_token := "test_patient_123"; features := ∅ |}.

Definition fixture_surroundings (now : Z) (h : Host) : Surroundings :=
  {| scorer := fun _ => Returned (0.92%float, top_factors fixture_alert);
     uuid_hex := "1a2b3c4d5e6f7a8b9c0d1e2f3a4b5c6d";
     clock_check := now;
     clock_stamp := now + 1;
     clock_cooldown := now + 2;
     link_check := Up;
     link_save := Up;
     link_cooldown := Up;
     host := h |}.

Definition fresh_process : Process :=
  {| storage := fallback_store; history := [] |}.

(** ** Vocabulary of the properties *)

(** A computation that only adds actions satisfying [P] to a journal
    whose actions satisfy [P]. *)
Definition emits_only (P : action -> Prop) {A : Type}
    (c : StateExn Wire A) : Prop :=
  forall w, Forall P (journal w) -> Forall P (journal (snd (c w))).

(** The one case in which the simulated announcement reports failure:
    on macOS, when running [say] raises something other than the three
    exceptions the code tolerates. *)
Definition simulation_breaks (h : Host) : bool :=
  String.eqb (platform_system h) "Darwin"
  && match say_error h with
     | None => false
     | Some CalledProcessError => false
     | Some TimeoutExpired => false
     | Some FileNotFoundError => false
     | Some _ => true
     end.

(** The two request blocks of the protocol path, for a spoken text. *)
Definition login_block (self : VoIPNotifier) : string :=
  "Action: Login" +:+ CRLF
  +:+ "Username: " +:+ fmt_opt (asterisk_user self) +:+ CRLF
  +:+ "Secret: " +:+ fmt_opt (asterisk_pass self) +:+ CRLF
  +:+ CRLF.

Definition originate_block (self : VoIPNotifier) (text : string) : string :=
  "Action: Originate" +:+ CRLF
  +:+ "Channel: SIP/" +:+ fmt_opt (alert_number self) +:+ CRLF
  +:+ "Application: Playback" +:+ CRLF
  +:+ "Data: " +:+ text +:+ CRLF
  +:+ "Async: true" +:+ CRLF +:+ CRLF.

(** What the message rule allows a dispatch for alert id [id] to send,
    run or log as the announced text. *)
Definition announces_only (self : VoIPNotifier) (id : string)
    (a : action) : Prop :=
  match a with
  | Run argv => argv = ["say"; "-v"; "Alex"; "-r"; "150"; voice_sentence id]
  | SockSend data =>
      data = login_block self \/ data = originate_block self (voice_sentence id)
  | _ => True
  end.

(** ** app/deps.py *)

(** The module-level [model] is [None] until a load succeeds; the
    loaded object itself is opaque. [load_model] takes what
    [joblib.load] meets. *)
Section Deps.
Variable Model : Type.

Definition load_model (loaded : outcome (option Model))
    : StateExn (option Model) (option Model) :=
  fun model =>
    match loaded with
    | Returned m => (Returned m, m)
    | Raised e => (Raised e, model)
    end.

(** [get_model] returns the object [model] itself, after checking it. *)
Definition get_model : StateExn (option Model) (option Model) :=
  fun model =>
    match model with
    | Some _ => (Returned model, model)
    | None => (Raised RuntimeError, model)
    end.

End Deps.

Arguments load_model {Model} loaded _.
Arguments get_model {Model} _.

(** ** app/main.py: the other routes *)

(** The body of the [/health] answer. *)
Record Health : Type := {
  status : string;
  model_loaded : bool;
}.

Definition health_check {Model : Type} : StateExn (option Model) Health :=
  (m <- get_model ;;
   ret {| status := "healthy";
          model_loaded := match m with Some _ => true | None => false end |})%py.

(** The template context of [/case/{token}]. *)
Record CaseContext : Type := {
  ctx_token : string;
  ctx_risk : float;
  ctx_top_factors : list Factor;
  ctx_timestamp : string;
  ctx_alerted : bool;
  ctx_alert_id : string;
}.

Section CaseView.
Context `{PyRuntime}.

(** [view_case]. [render] is [templates.TemplateResponse] on the
    context: the page, or an exception. *)
Definition view_case (lk : link) (render : CaseContext -> outcome string)
    (token : string) : StateExn Storage string :=
  fun s =>
    match get_alert lk token s with
    | (Returned (Some alert), s') =>
        match render {| ctx_token := token;
                        ctx_risk := risk alert;
                        ctx_top_factors := top_factors alert;
                        ctx_timestamp := timestamp alert;
                        ctx_alerted := true;
                        ctx_alert_id := alert_id alert |} with
        | Returned page => (Returned page, s')
        | Raised (HTTPException code) => (Raised (HTTPException code), s')
        | Raised _ => (Raised (HTTPException 500), s')
        end
    | (Returned None, s') => (Raised (HTTPException 404), s')
    | (Raised _, s') => (Raised (HTTPException 500), s')
    end.

End CaseView.

(** ** app/shap_explain.py *)

(** What [hasattr] and attribute access find on the model object.
    [feature_importances_] is [None] when the attribute is absent or
    cannot be walked through. *)
Record ModelAttrs : Type := {
  has_tree_ : bool;
  has_estimators_ : bool;
  has_coef_ : bool;
  feature_importances_ : option (list float);
}.

(** What the libraries do during one explanation: whether [import shap]
    succeeds, whether building the data frame raises, and the row
    [shap_values[0]] (of the positive class) each explainer produces,
    or the exception it raises. *)
Record ShapWorld : Type := {
  shap_importable : bool;
  dataframe_error : option exn;
  tree_row : outcome (list float);
  linear_row : outcome (list float);
}.

(** [l[:k]]: the first [k] elements, all but the last [-k] when [k] is
    negative. *)
Definition slice_to {A : Type} (k : Z) (l : list A) : list A :=
  if 0 <=? k then firstn (Z.to_nat k) l
  else firstn (length l - Z.to_nat (- k))%nat l.

(** [zip(names, values)] into the dictionaries with keys [feature] and
    [impact]. *)
Fixpoint feature_impacts_of (names : list string) (values : list float)
    : list Factor :=
  match names, values with
  | name :: names', value :: values' =>
      {| feature := name; impact := value |}
      :: feature_impacts_of names' values'
  | _, _ => []
  end.

Section Explain.

(** [list.sort(key=lambda x: x['impact'], reverse=True)], a library
    function. *)
Variable sort_by_impact_desc : list Factor -> list Factor.

(** [features] is the request's dictionary, as its keys in order. *)
Definition _permutation_importance_fallback (model : ModelAttrs)
    (features : list string) (k : Z) : list Factor :=
  match feature_importances_ model with
  | Some importances =>
      slice_to k
        (sort_by_impact_desc (feature_impacts_of features importances))
  | None => []
  end.

Definition explain_top_k (world : ShapWorld) (model : ModelAttrs)
    (features : list string) (k : Z) : list Factor :=
  if shap_importable world then
    match dataframe_error world with
    | Some _ => _permutation_importance_fallback model features k
    | None =>
      if has_tree_ model || has_estimators_ model then
        match tree_row world with
        | Returned row =>
            slice_to k
              (sort_by_impact_desc
                 (feature_impacts_of features (List.map PrimFloat.abs row)))
        | Raised _ => _permutation_importance_fallback model features k
        end
      else if has_coef_ model then
        match linear_row world with
        | Returned row =>
            slice_to k
              (sort_by_impact_desc
                 (feature_impacts_of features (List.map PrimFloat.abs row)))
        | Raised _ => _permutation_importance_fallback model features k
        end
      else _permutation_importance_fallback model features k
    end
  else _permutation_importance_fallback model features k.

Definition safe_explain_top_k (world : ShapWorld) (model : ModelAttrs)
    (features : list string) (k : Z) : list Factor :=
  explain_top_k world model features k.

End Explain.

(** Descending by impact, as the sort orders its keys. *)
Definition impact_desc (x y : Factor) : Prop :=
  (impact y <=? impact x)%float = true.

(** ** voip_simulator.py *)

(** What the simulator does to the outside: lines it prints (with the
    exception a line ends with, if any), commands it runs, and sleeps. *)
Inductive sim_action : Type :=
| Print (text : string) (exc : option exn)
| RunCommand (argv : list string)
| Sleep (seconds : Z).

(** The machine the simulator runs on: [platform.system()], what
    running [which say] raises and what running [say] raises. *)
Record SimHost : Type := {
  sim_system : string;
  which_error : option exn;
  sim_say_error : option exn;
}.

Record VoIPSimulator : Type := {
  system : string;
  voice_enabled : bool;
}.

Definition sim_emit (a : sim_action) : StateExn (list sim_action) unit :=
  fun out => (Returned tt, out ++ [a]).

Definition _check_voice_capability (h : SimHost) (system : string)
    : StateExn (list sim_action) bool :=
  if String.eqb system "Darwin" then
    try_except
      (sim_emit (RunCommand ["which"; "say"]) ;;;
       match which_error h with
       | Some e => raise e
       | None => ret true
       end)%py
      (fun e =>
         match e with
         | CalledProcessError | FileNotFoundError => ret false
         | _ => raise e
         end)
  else ret false.

Definition VoIPSimulator_init (h : SimHost)
    : StateExn (list sim_action) VoIPSimulator :=
  (enabled <- _check_voice_capability h (sim_system h) ;;
   ret {| system := sim_system h; voice_enabled := enabled |})%py.

Definition make_call (self : VoIPSimulator) (h : SimHost)
    (phone_number message : string) : StateExn (list sim_action) bool :=
  (sim_emit (Print "📞 SIMULATED VOIP CALL" None) ;;;
   sim_emit (Print ("   📱 To: " +:+ phone_number) None) ;;;
   sim_emit (Print ("   💬 Message: " +:+ message) None) ;;;
   sim_emit (Print "   ⏱️  Duration: 3 seconds" None) ;;;
   (if voice_enabled self then
      try_except
        (sim_emit (RunCommand ["say"; "-v"; "Alex"; "-r"; "150"; message]) ;;;
         match sim_say_error h with
         | Some e => raise e
         | None => sim_emit (Print "   ✅ Voice message played successfully" None)
         end)
        (fun e =>
           match e with
           | TimeoutExpired =>
               sim_emit (Print "   ⚠️  Voice message timed out" None)
           | _ => sim_emit (Print "   ❌ Voice error: " (Some e))
           end)
    else
      sim_emit (Print "   📢 Text-to-speech not available on this system" None)) ;;;
   sim_emit (Sleep 2) ;;;
   sim_emit (Print "   📞 Call ended" None) ;;;
   ret true)%py.

(** ** Further vocabulary *)

Definition saves_alert_of (alert_id' : string) (c : store_call) : Prop :=
  match c with
  | DoSaveAlert _ a => alert_id a = alert_id'
  | _ => False
  end.

Definition is_none {A : Type} (o : option A) : bool :=
  match o with
  | None => true
  | Some _ => false
  end.

(** Whether the peer lets a dispatch through: it accepts the
    connection, its first frame starts with the protocol identifier,
    the login is sent and answered with the marker, the Originate
    request is sent and answered with the marker. *)
Definition peer_grants `{PyRuntime} (p : Peer) : bool :=
  is_none (connect_error p)
  && match recv_loop "" (recv_script p) with
     | (Returned banner, rest1) =>
         String.prefix "Asterisk" (decode_ignore banner)
         && is_none (hd None (send_errors p))
         && match recv_loop "" rest1 with
            | (Returned login, rest2) =>
                py_in "Success" (decode_ignore login)
                && is_none (hd None (tl (send_errors p)))
                && match recv_loop "" rest2 with
                   | (Returned reply, _) => py_in "Success" (decode_ignore reply)
                   | (Raised _, _) => false
                   end
            | (Raised _, _) => false
            end
     | (Raised _, _) => false
     end.

(** A computation that appends to the journal, and only actions
    satisfying [P]. *)
Definition appends_only (P : action -> Prop) {A : Type}
    (c : StateExn Wire A) : Prop :=
  forall w, exists added,
    journal (snd (c w)) = journal w ++ added /\ Forall P added.

Definition inside_session (a : action) : Prop :=
  a <> SockOpen /\ a <> SockClose.

(** The text of the chunks a read consumed. *)
Fixpoint join (chunks : list string) : string :=
  match chunks with
  | [] => ""
  | c :: chunks' => c +:+ join chunks'
  end.

(** A sort for the examples: insertion, descending by impact, stable. *)
Fixpoint fixture_insert (x : Factor) (l : list Factor) : list Factor :=
  match l with
  | [] => [x]
  | y :: l' =>
      if (impact y <? impact x)%float then x :: y :: l'
      else y :: fixture_insert x l'
  end.

Fixpoint fixture_sort (l : list Factor) : list Factor :=
  match l with
  | [] => []
  | x :: l' => fixture_insert x (fixture_sort l')
  end.

Definition forest_model : ModelAttrs :=
  {| has_tree_ := false;
     has_estimators_ := true;
     has_coef_ := false;
     feature_importances_ := Some [0.10%float; 0.15%float; 0.12%float; 0.05%float] |}.

Definition no_shap : ShapWorld :=
  {| shap_importable := false;
     dataframe_error := None;
     tree_row := Raised OtherError;
     linear_row := Raised OtherError |}.

Definition mac_sim_host (which say : option exn) : SimHost :=
  {| sim_system := "Darwin"; which_error := which; sim_say_error := say |}.

(** * Properties *)

(** ** Comparison of binary64 numbers *)

Lemma SFcompare_refl_not_Lt (x : spec_float) : SFcompare x x <> Some Lt.
Proof.
  destruct x as [s|s| |s m e]; unfold SFcompare;
    try destruct s; try discriminate.
  all: rewrite Z.compare_refl;
       change (Pos.compare_cont Eq m m) with (Pos.compare m m);
       rewrite Pos.compare_refl; discriminate.
Qed.

Lemma SFcompare_Lt_swap (x y : spec_float) :
  SFcompare x y = Some Lt -> SFcompare y x = Some Gt.
Proof.
  destruct x as [s1|s1| |s1 m1 e1], y as [s2|s2| |s2 m2 e2];
    unfold SFcompare; try destruct s1; try destruct s2; try congruence.
  all: change (Pos.compare_cont Eq m1 m2) with (Pos.compare m1 m2);
       change (Pos.compare_cont Eq m2 m1) with (Pos.compare m2 m1);
       rewrite (Z.compare_antisym e1 e2), (Pos.compare_antisym m1 m2);
       destruct (e1 ?= e2)%Z; simpl; try congruence;
       destruct (m1 ?= m2)%positive; simpl; congruence.
Qed.

(** No number is strictly below itself (NaN included). *)
Lemma float_ltb_irrefl (x : float) : (x <? x)%float = false.
Proof.
  rewrite ltb_spec. unfold SFltb.
  pose proof (SFcompare_refl_not_Lt (Prim2SF x)) as Hn.
  destruct (SFcompare (Prim2SF x) (Prim2SF x)) as [[]|]; congruence.
Qed.

(** A number at or above another is not strictly below it. *)
Lemma float_leb_not_ltb (x y : float) :
  (x <=? y)%float = true -> (y <? x)%float = false.
Proof.
  rewrite leb_spec, ltb_spec. unfold SFleb, SFltb. intros Hle.
  destruct (SFcompare (Prim2SF y) (Prim2SF x)) as [[]|] eqn:Hyx;
    try reflexivity.
  apply SFcompare_Lt_swap in Hyx. rewrite Hyx in Hle. discriminate.
Qed.

(** ** Keys *)

Lemma alert_key_inj (a b : string) : alert_key a = alert_key b -> a = b.
Proof. cbv [alert_key String.append]. intros Heq. congruence. Qed.

Lemma cooldown_key_inj (a b : string) :
  cooldown_key a = cooldown_key b -> a = b.
Proof. cbv [cooldown_key String.append]. intros Heq. congruence. Qed.

Lemma alert_key_not_cooldown_key (a t : string) :
  alert_key a <> cooldown_key t.
Proof. cbv [alert_key cooldown_key String.append]. discriminate. Qed.

(** ** The window *)


Lemma timedelta_thirty_minutes : timedelta_minutes 30 = Some (30 * minute).
Proof. reflexivity. Qed.

(** ** The decision gate *)

Section GateFacts.
Context `{PyRuntime}.
Variable env : gmap string string.

Lemma should_alert_below (now : Z) (lk : link) (risk threshold : float)
    (tok : string) (s : Storage) :
  risk_threshold env = Some threshold ->
  (risk <? threshold)%float = true ->
  should_alert env now lk risk tok s = (Returned false, s).
Proof.
  intros Hth Hlt. unfold should_alert. rewrite Hth, Hlt. reflexivity.
Qed.

Lemma should_alert_not_below (now : Z) (lk : link) (risk threshold : float)
    (tok : string) (s : Storage) (b : bool) :
  risk_threshold env = Some threshold ->
  (risk <? threshold)%float = false ->
  fst (in_cooldown env now lk tok s) = Returned b ->
  fst (should_alert env now lk risk tok s) = Returned (negb b).
Proof.
  intros Hth Hlt Hcd. unfold should_alert. rewrite Hth, Hlt.
  destruct (in_cooldown env now lk tok s) as [[[|]|e] s']; simpl in *;
    try discriminate; injection Hcd as <-; reflexivity.
Qed.

Lemma risk_threshold_default :
  env !! "RISK_THRESHOLD" = None -> risk_threshold env = py_float "0.80".
Proof.
  intros Hunset. unfold risk_threshold, getenv_default.
  rewrite Hunset. reflexivity.
Qed.

End GateFacts.

(** C1. With a threshold configured, [should_alert] returns false when
    the risk is strictly below it; otherwise it returns false when
    [in_cooldown] reports the token in cooldown and true when it does
    not. A risk equal to the threshold with no cooldown gives true.
    When RISK_THRESHOLD is unset the threshold is [float("0.80")]. *)
Theorem should_alert_decides `{PyRuntime} (env : gmap string string)
    (now : Z) (lk : link) (risk threshold : float) (tok : string)
    (s : Storage) :
  risk_threshold env = Some threshold ->
  ((risk <? threshold)%float = true ->
     fst (should_alert env now lk risk tok s) = Returned false)
  /\ ((risk <? threshold)%float = false ->
      (fst (in_cooldown env now lk tok s) = Returned true ->
         fst (should_alert env now lk risk tok s) = Returned false)
      /\ (fst (in_cooldown env now lk tok s) = Returned false ->
         fst (should_alert env now lk risk tok s) = Returned true))
  /\ (fst (in_cooldown env now lk tok s) = Returned false ->
      fst (should_alert env now lk threshold tok s) = Returned true)
  /\ (env !! "RISK_THRESHOLD" = None -> py_float "0.80" = Some threshold).
Proof.
  intros Hth. repeat split.
  - intros Hlt. rewrite (should_alert_below env now lk risk threshold); auto.
  - intros Hcd.
    apply (should_alert_not_below env now lk risk threshold tok s true); auto.
  - intros Hcd.
    apply (should_alert_not_below env now lk risk threshold tok s false); auto.
  - intros Hcd.
    apply (should_alert_not_below env now lk threshold threshold tok s false);
      auto using float_ltb_irrefl.
  - intros Hunset. rewrite <- (risk_threshold_default env Hunset). exact Hth.
Qed.

Lemma should_alert_decides_witness :
  risk_threshold ∅ = Some 0.80%float
  /\ fst (should_alert ∅ (5 * minute) Up 0.80%float "test_patient_123"
            fallback_store) = Returned true.
Proof.
  split; [reflexivity|].
  apply (should_alert_decides ∅ (5 * minute) Up 0.92%float 0.80%float
           "test_patient_123" fallback_store); reflexivity.
Defined.

(** ** The store: results *)

Section StoreFacts.
Context `{PyRuntime}.
Variable env : gmap string string.

Lemma set_cooldown_returns (now : Z) (lk : link) (tok : string)
    (s : Storage) :
  fst (set_cooldown now lk tok s) = Returned tt.
Proof. unfold set_cooldown. destruct (redis_client s), lk; reflexivity. Qed.

Lemma save_alert_returns (lk : link) (alert : AlertData) (s : Storage) :
  fst (save_alert lk alert s) = Returned tt.
Proof. unfold save_alert. destruct (redis_client s), lk; reflexivity. Qed.

Lemma get_alert_returns (lk : link) (id : string) (s : Storage) :
  returns (fst (get_alert lk id s)).
Proof.
  unfold get_alert, returns.
  destruct (redis_client s) as [db|]; [|eauto].
  destruct lk; [|eauto].
  destruct (db !! alert_key id) as [v|]; [|eauto].
  destruct (truthy v); [|eauto].
  destruct (model_validate_json v); simpl; eauto.
Qed.

Lemma in_cooldown_returns (now : Z) (lk : link) (tok : string)
    (s : Storage) (minutes window : Z) :
  cooldown_minutes env = Some minutes ->
  timedelta_minutes minutes = Some window ->
  returns (fst (in_cooldown env now lk tok s)).
Proof.
  intros Hm Hw. unfold in_cooldown, returns. rewrite Hm, Hw.
  destruct (redis_client s) as [db|].
  - destruct lk; [|eauto].
    destruct (db !! cooldown_key tok) as [v|]; [|eauto].
    destruct (truthy v); [|eauto].
    destruct (fromisoformat v); simpl; eauto.
  - destruct (cooldowns s !! tok); simpl; eauto.
Qed.

(** The two readers leave the store as it is. *)
Lemma in_cooldown_state (now : Z) (lk : link) (tok : string) (s : Storage) :
  snd (in_cooldown env now lk tok s) = s.
Proof.
  unfold in_cooldown.
  destruct (cooldown_minutes env) as [m|]; [|reflexivity].
  destruct (redis_client s) as [db|].
  - destruct lk; [|reflexivity].
    destruct (db !! cooldown_key tok) as [v|]; [|reflexivity].
    destruct (truthy v); [|reflexivity].
    destruct (fromisoformat v); [|reflexivity].
    destruct (timedelta_minutes m); reflexivity.
  - destruct (cooldowns s !! tok); [|reflexivity].
    destruct (timedelta_minutes m); reflexivity.
Qed.

Lemma get_alert_state (lk : link) (id : string) (s : Storage) :
  snd (get_alert lk id s) = s.
Proof.
  unfold get_alert.
  destruct (redis_client s) as [db|]; [|reflexivity].
  destruct lk; [|reflexivity].
  destruct (db !! alert_key id) as [v|]; [|reflexivity].
  destruct (truthy v); [|reflexivity].
  destruct (model_validate_json v); reflexivity.
Qed.

Lemma should_alert_state (now : Z) (lk : link) (risk : float)
    (tok : string) (s : Storage) :
  snd (should_alert env now lk risk tok s) = s.
Proof.
  unfold should_alert.
  destruct (risk_threshold env) as [th|]; [|reflexivity].
  destruct (risk <? th)%float; [reflexivity|].
  pose proof (in_cooldown_state now lk tok s) as Hs.
  destruct (in_cooldown env now lk tok s) as [[[|]|e] s']; simpl in *;
    congruence.
Qed.

(** What the writers change, key by key on the server. *)
Lemma save_alert_redis_get (lk : link) (alert : AlertData) (s : Storage)
    (key : string) :
  key <> alert_key (alert_id alert) ->
  redis_get (snd (save_alert lk alert s)) key = redis_get s key.
Proof.
  intros Hne. unfold save_alert, redis_get.
  destruct (redis_client s) as [db|] eqn:Hc; [|simpl; rewrite Hc; reflexivity].
  destruct lk; simpl; [|rewrite Hc; reflexivity].
  apply lookup_insert_ne. congruence.
Qed.

Lemma set_cooldown_redis_get (now : Z) (lk : link) (tok : string)
    (s : Storage) (key : string) :
  key <> cooldown_key tok ->
  redis_get (snd (set_cooldown now lk tok s)) key = redis_get s key.
Proof.
  intros Hne. unfold set_cooldown, redis_get.
  destruct (redis_client s) as [db|] eqn:Hc; [|simpl; rewrite Hc; reflexivity].
  destruct lk; simpl; [|rewrite Hc; reflexivity].
  apply lookup_insert_ne. congruence.
Qed.

Lemma save_alert_cooldowns (lk : link) (alert : AlertData) (s : Storage) :
  cooldowns (snd (save_alert lk alert s)) = cooldowns s.
Proof. unfold save_alert. destruct (redis_client s), lk; reflexivity. Qed.

Lemma set_cooldown_memory_store (now : Z) (lk : link) (tok : string)
    (s : Storage) :
  memory_store (snd (set_cooldown now lk tok s)) = memory_store s.
Proof. unfold set_cooldown. destruct (redis_client s), lk; reflexivity. Qed.

Lemma save_alert_memory_store (lk : link) (alert : AlertData)
    (s : Storage) (id : string) :
  id <> alert_id alert ->
  memory_store (snd (save_alert lk alert s)) !! id = memory_store s !! id.
Proof.
  intros Hne. unfold save_alert.
  destruct (redis_client s), lk; simpl; try reflexivity;
    apply lookup_insert_ne; congruence.
Qed.

Lemma set_cooldown_cooldowns (now : Z) (lk : link) (tok : string)
    (s : Storage) (t : string) :
  t <> tok ->
  cooldowns (snd (set_cooldown now lk tok s)) !! t = cooldowns s !! t.
Proof.
  intros Hne. unfold set_cooldown.
  destruct (redis_client s), lk; simpl; try reflexivity;
    apply lookup_insert_ne; congruence.
Qed.

(** Whether the object has a client never changes after construction. *)
Lemma run_call_client (c : store_call) (s : Storage) :
  redis_client (run_call env c s) = None <-> redis_client s = None.
Proof.
  destruct c as [now lk t|now lk t|lk a|lk i]; simpl.
  - rewrite in_cooldown_state. reflexivity.
  - unfold set_cooldown.
    destruct (redis_client s) eqn:Hc, lk; simpl; rewrite ?Hc; split; congruence.
  - unfold save_alert.
    destruct (redis_client s) eqn:Hc, lk; simpl; rewrite ?Hc; split; congruence.
  - rewrite get_alert_state. reflexivity.
Qed.




End StoreFacts.

(** A failed read of [get_alert] answers from [memory_store], whatever
    the server holds. *)
Lemma get_alert_read_failure_uses_fallback `{PyRuntime} (id : string)
    (s : Storage) :
  fst (get_alert Down id s) = Returned (memory_store s !! id).
Proof. unfold get_alert. destruct (redis_client s); reflexivity. Qed.

(** A failed read of [in_cooldown] answers false, whatever [cooldowns]
    holds. *)
Lemma in_cooldown_read_failure_is_false `{PyRuntime}
    (env : gmap string string) (now : Z) (tok : string) (s : Storage)
    (db : gmap string string) (minutes : Z) :
  cooldown_minutes env = Some minutes ->
  redis_client s = Some db ->
  fst (in_cooldown env now Down tok s) = Returned false.
Proof.
  intros Hm Hc. unfold in_cooldown. rewrite Hm, Hc. reflexivity.
Qed.

(** C2. On a store with a client, [set_cooldown] whose write fails puts
    the instant into [cooldowns]; five minutes later an [in_cooldown]
    whose read fails answers false, although the entry is in
    [cooldowns] and a store reading that dictionary answers true. *)
Theorem in_cooldown_skips_fallback_on_read_failure :
  let s1 := snd (set_cooldown 0 Down "test_patient_123" durable_store) in
  cooldowns s1 !! "test_patient_123" = Some 0
  /\ fst (in_cooldown ∅ (5 * minute) Down "test_patient_123" s1)
     = Returned false
  /\ fst (in_cooldown ∅ (5 * minute) Down "test_patient_123"
            {| redis_client := None;
               memory_store := memory_store s1;
               cooldowns := cooldowns s1 |})
     = Returned true.
Proof. vm_compute. repeat split; reflexivity. Qed.

(** C3, as stated, fails when the two calls take different paths, here
    on a store whose client reaches an empty server. A [save_alert]
    whose write fails keeps the record in [memory_store], and a
    [get_alert] whose read then succeeds looks on the server only: it
    returns [None]. A [save_alert] whose write succeeds puts the record
    on the server only, and a [get_alert] whose read then fails looks
    in [memory_store]: it returns [None] as well. *)
Lemma save_then_get_after_degraded_write :
  fst (get_alert Up (alert_id fixture_alert)
         (snd (save_alert Down fixture_alert durable_store)))
  = Returned None
  /\ fst (get_alert Down (alert_id fixture_alert)
            (snd (save_alert Up fixture_alert durable_store)))
     = Returned None.
Proof. vm_compute. split; reflexivity. Qed.

(** C3, amended. [save_alert r] followed by [get_alert] on [r]'s id
    returns [r] itself when the store has no client (the fallback
    path), when both calls fail on the server, and when both succeed
    and the serialised record reads back as [r]. *)
Theorem save_then_get_round_trip `{PyRuntime} (wl rl : link)
    (r : AlertData) (s : Storage) :
  redis_client s = None
  \/ (wl = Down /\ rl = Down)
  \/ (wl = Up /\ rl = Up
      /\ truthy (model_dump_json r) = true
      /\ model_validate_json (model_dump_json r) = Some r) ->
  fst (get_alert rl (alert_id r) (snd (save_alert wl r s)))
  = Returned (Some r).
Proof.
  intros Hpath. unfold save_alert, get_alert.
  destruct (redis_client s) as [db|] eqn:Hc.
  - destruct Hpath as [Hnone|[[-> ->]|(-> & -> & Hne & Hrt)]];
      [discriminate| |]; simpl; rewrite ?Hc; simpl.
    + rewrite lookup_insert_eq. reflexivity.
    + rewrite lookup_insert_eq, Hne, Hrt. reflexivity.
  - simpl. rewrite Hc. simpl. rewrite lookup_insert_eq. reflexivity.
Qed.

Lemma save_then_get_round_trip_witness :
  fst (get_alert Up (alert_id fixture_alert)
         (snd (save_alert Up fixture_alert durable_store)))
  = Returned (Some fixture_alert)
  /\ fst (get_alert Up (alert_id fixture_alert)
            (snd (save_alert Down fixture_alert fallback_store)))
     = Returned (Some fixture_alert).
Proof.
  split.
  - apply (save_then_get_round_trip Up Up fixture_alert durable_store).
    right. right. repeat split; reflexivity.
  - apply (save_then_get_round_trip Down Up fixture_alert fallback_store).
    left. reflexivity.
Defined.

(** C4, as stated, fails: COOLDOWN_MINUTES = 1440000000000 is read by
    [int], but [timedelta(minutes=...)] raises [OverflowError] for it,
    outside any handler on the path without a client. *)
Lemma in_cooldown_raises_on_overlong_window :
  cooldown_minutes (<["COOLDOWN_MINUTES" := "1440000000000"]> ∅)
  = Some 1440000000000
  /\ fst (in_cooldown (<["COOLDOWN_MINUTES" := "1440000000000"]> ∅)
            (5 * minute) Up "test_patient_123"
            (snd (set_cooldown 0 Up "test_patient_123" fallback_store)))
     = Raised OverflowError.
Proof. vm_compute. split; reflexivity. Qed.

(** C4, amended. When COOLDOWN_MINUTES is read by [int] and the number
    is one [timedelta] accepts, each of the four store operations
    returns a value, whatever the store holds, with or without a client
    and whether or not the server answers. *)
Theorem store_operations_return `{PyRuntime} (env : gmap string string)
    (now : Z) (lk : link) (tok : string) (alert : AlertData) (id : string)
    (s : Storage) (minutes window : Z) :
  cooldown_minutes env = Some minutes ->
  timedelta_minutes minutes = Some window ->
  returns (fst (in_cooldown env now lk tok s))
  /\ returns (fst (set_cooldown now lk tok s))
  /\ returns (fst (save_alert lk alert s))
  /\ returns (fst (get_alert lk id s)).
Proof.
  intros Hm Hw. repeat split.
  - exact (in_cooldown_returns env now lk tok s minutes window Hm Hw).
  - exists tt. apply set_cooldown_returns.
  - exists tt. apply save_alert_returns.
  - apply get_alert_returns.
Qed.

Lemma store_operations_return_witness :
  returns (fst (in_cooldown ∅ (5 * minute) Down "test_patient_123"
                  durable_store))
  /\ returns (fst (set_cooldown 0 Down "test_patient_123" durable_store))
  /\ returns (fst (save_alert Down fixture_alert durable_store))
  /\ returns (fst (get_alert Down "test_alert_12345678" durable_store)).
Proof.
  apply (store_operations_return ∅ (5 * minute) Down "test_patient_123"
           fixture_alert "test_alert_12345678" durable_store 30 (30 * minute));
    reflexivity.
Defined.

(** C10. [save_alert] leaves every cooldown entry, every alert entry
    under another id and every server key but its own unchanged;
    [set_cooldown] leaves every alert entry, every other token's
    cooldown entry and every server key but its own unchanged;
    [in_cooldown] and [get_alert] leave the store as it is. *)
Theorem store_operations_frame `{PyRuntime} (env : gmap string string)
    (now : Z) (lk : link) (tok : string) (alert : AlertData) (id : string)
    (s : Storage) :
  (forall t, cooldown_entry (snd (save_alert lk alert s)) t
             = cooldown_entry s t)
  /\ (forall i, i <> alert_id alert ->
        alert_entry (snd (save_alert lk alert s)) i = alert_entry s i)
  /\ (forall key, key <> alert_key (alert_id alert) ->
        redis_get (snd (save_alert lk alert s)) key = redis_get s key)
  /\ (forall i, alert_entry (snd (set_cooldown now lk tok s)) i
                = alert_entry s i)
  /\ (forall t, t <> tok ->
        cooldown_entry (snd (set_cooldown now lk tok s)) t
        = cooldown_entry s t)
  /\ (forall key, key <> cooldown_key tok ->
        redis_get (snd (set_cooldown now lk tok s)) key = redis_get s key)
  /\ snd (in_cooldown env now lk tok s) = s
  /\ snd (get_alert lk id s) = s.
Proof.
  repeat split.
  - intros t. unfold cooldown_entry.
    rewrite save_alert_cooldowns, save_alert_redis_get; [reflexivity|].
    intros Heq. symmetry in Heq. exact (alert_key_not_cooldown_key _ _ Heq).
  - intros i Hne. unfold alert_entry.
    rewrite save_alert_memory_store, save_alert_redis_get; auto.
    intros Heq. apply alert_key_inj in Heq. congruence.
  - intros key Hne. apply save_alert_redis_get. exact Hne.
  - intros i. unfold alert_entry.
    rewrite set_cooldown_memory_store, set_cooldown_redis_get; [reflexivity|].
    apply alert_key_not_cooldown_key.
  - intros t Hne. unfold cooldown_entry.
    rewrite set_cooldown_cooldowns, set_cooldown_redis_get; auto.
    intros Heq. apply cooldown_key_inj in Heq. congruence.
  - intros key Hne. apply set_cooldown_redis_get. exact Hne.
  - apply in_cooldown_state.
  - apply get_alert_state.
Qed.

(** ** The cooldown window *)

Section WindowFacts.
Context `{PyRuntime}.
Variable env : gmap string string.

(** Right after [set_cooldown] at [t]: without a client the entry is
    read back from [cooldowns]; with a client, a write and a read that
    both reach the server go through the serialised instant. *)
Lemma in_cooldown_after_set (t t' : Z) (wl rl : link) (tok : string)
    (s : Storage) (minutes window : Z) :
  cooldown_minutes env = Some minutes ->
  timedelta_minutes minutes = Some window ->
  redis_client s = None
  \/ (wl = Up /\ rl = Up
      /\ truthy (isoformat t) = true
      /\ fromisoformat (isoformat t) = Some t) ->
  fst (in_cooldown env t' rl tok (snd (set_cooldown t wl tok s)))
  = Returned (t' - t <? window).
Proof.
  intros Hm Hw Hpath. unfold in_cooldown, set_cooldown. rewrite Hm.
  destruct (redis_client s) as [db|] eqn:Hc.
  - destruct Hpath as [Hnone|(-> & -> & Hne & Hrt)]; [discriminate|].
    simpl. rewrite lookup_insert_eq, Hne, Hrt, Hw. reflexivity.
  - simpl. rewrite Hc, lookup_insert_eq, Hw. reflexivity.
Qed.


End WindowFacts.




(** ** The notifier: what it emits *)

Section JournalFacts.
Variable P : action -> Prop.

Lemma emits_only_ret {A : Type} (a : A) : emits_only P (ret a).
Proof. intros w Hw. exact Hw. Qed.

Lemma emits_only_raise {A : Type} (e : exn) : emits_only P (@raise Wire A e).
Proof. intros w Hw. exact Hw. Qed.

Lemma emits_only_bind {A B : Type} (c : StateExn Wire A)
    (k : A -> StateExn Wire B) :
  emits_only P c -> (forall a, emits_only P (k a)) ->
  emits_only P (bind c k).
Proof.
  intros Hc Hk w Hw. unfold bind. specialize (Hc w Hw).
  destruct (c w) as [[a|e] w']; simpl in *; [|exact Hc].
  apply Hk. exact Hc.
Qed.

Lemma emits_only_try_except {A : Type} (body : StateExn Wire A)
    (handler : exn -> StateExn Wire A) :
  emits_only P body -> (forall e, emits_only P (handler e)) ->
  emits_only P (try_except body handler).
Proof.
  intros Hb Hh w Hw. unfold try_except. specialize (Hb w Hw).
  destruct (body w) as [[a|e] w']; simpl in *; [exact Hb|].
  apply Hh. exact Hb.
Qed.

Lemma record_action_journal (a : action) (w : Wire) :
  P a -> Forall P (journal w) -> Forall P (journal (record_action a w)).
Proof.
  intros Ha Hw. unfold record_action. simpl.
  apply Forall_app. split; [exact Hw|]. constructor; [exact Ha|constructor].
Qed.

Lemma emits_only_try_finally {A : Type} (body : StateExn Wire A)
    (a : action) :
  P a -> emits_only P body ->
  emits_only P (try_finally body (record_action a)).
Proof.
  intros Ha Hb w Hw. unfold try_finally. specialize (Hb w Hw).
  destruct (body w) as [o w']; simpl in *.
  apply record_action_journal; assumption.
Qed.

Lemma emits_only_emit (a : action) : P a -> emits_only P (emit a).
Proof. intros Ha w Hw. apply record_action_journal; assumption. Qed.

Lemma emits_only_sock_connect (h : Host) (host : string) (port : Z) :
  P (SockConnect host port) -> emits_only P (sock_connect h host port).
Proof.
  intros Ha w Hw. unfold sock_connect.
  destruct (connect_error (peer h)); apply record_action_journal; assumption.
Qed.

Lemma emits_only_sock_send (data : string) :
  P (SockSend data) -> emits_only P (sock_send data).
Proof.
  intros Ha w Hw. unfold sock_send.
  destruct (pending_sends w) as [|[e|] rest]; simpl;
    (apply Forall_app; split; [exact Hw|];
     constructor; [exact Ha|constructor]).
Qed.

Lemma emits_only_read `{PyRuntime} : emits_only P _read_ami_response.
Proof.
  intros w Hw. unfold _read_ami_response.
  destruct (recv_loop "" (pending_recvs w)) as [o rest]. exact Hw.
Qed.

End JournalFacts.

(** One step through a computation without branches. *)
Ltac emits_step :=
  first
    [ apply emits_only_ret
    | apply emits_only_raise
    | apply emits_only_read
    | apply emits_only_emit
    | apply emits_only_sock_connect
    | apply emits_only_sock_send
    | apply emits_only_bind; [|intros _] ].

Section NotifierFacts.
Context `{PyRuntime}.

(** A handler that returns makes the whole [try] return. *)
Lemma try_except_returns {S A : Type} (body : StateExn S A)
    (handler : exn -> StateExn S A) (s : S) :
  (forall e s', returns (fst (handler e s'))) ->
  returns (fst (try_except body handler s)).
Proof.
  intros Hh. unfold try_except.
  destruct (body s) as [[a|e] s']; [exists a; reflexivity|apply Hh].
Qed.

Lemma notify_voice_returns (self : VoIPNotifier) (h : Host)
    (alert : AlertData) (w : Wire) :
  returns (fst (notify_voice self h alert w)).
Proof.
  unfold notify_voice, _simulate_voice_alert.
  destruct (negb (ami_available self));
    apply try_except_returns; intros e s'; exists false; reflexivity.
Qed.

(** The call depends on the alert through its id alone. *)
Lemma notify_voice_reads_alert_id (self : VoIPNotifier) (h : Host)
    (a a' : AlertData) (w : Wire) :
  alert_id a' = alert_id a ->
  notify_voice self h a' w = notify_voice self h a w.
Proof.
  intros Hid. unfold notify_voice, _simulate_voice_alert.
  rewrite Hid. reflexivity.
Qed.

Lemma simulate_emits_only (P : action -> Prop) (self : VoIPNotifier)
    (h : Host) (alert : AlertData) :
  (forall l t e, P (Log l t e)) ->
  P (Run ["say"; "-v"; "Alex"; "-r"; "150"; voice_sentence (alert_id alert)]) ->
  emits_only P (_simulate_voice_alert self h alert).
Proof.
  intros Hlog Hrun. unfold _simulate_voice_alert.
  apply emits_only_try_except; [|intros e; repeat emits_step; apply Hlog].
  do 3 (apply emits_only_bind; [emits_step; apply Hlog|intros _]).
  apply emits_only_bind; [|intros _; emits_step].
  destruct (String.eqb (platform_system h) "Darwin");
    [|emits_step; apply Hlog].
  apply emits_only_try_except.
  - apply emits_only_bind; [emits_step; exact Hrun|intros _].
    destruct (say_error h); emits_step. apply Hlog.
  - intros e. destruct e; emits_step; apply Hlog.
Qed.

Lemma protocol_emits_only (self : VoIPNotifier) (h : Host)
    (alert : AlertData) :
  ami_available self = true ->
  emits_only (announces_only self (alert_id alert))
    (notify_voice self h alert).
Proof.
  intros Hami. unfold notify_voice. rewrite Hami. cbn [negb].
  apply emits_only_try_except; [|intros e; repeat emits_step; exact I].
  apply emits_only_bind; [emits_step; exact I|intros _].
  apply emits_only_try_finally; [exact I|].
  apply emits_only_bind; [emits_step; exact I|intros _].
  apply emits_only_bind; [emits_step|intros banner].
  apply emits_only_bind;
    [destruct (negb (String.prefix "Asterisk" banner)); emits_step|intros _].
  apply emits_only_bind; [emits_step; left; reflexivity|intros _].
  apply emits_only_bind; [emits_step|intros login].
  apply emits_only_bind;
    [destruct (negb (py_in "Success" login)); emits_step|intros _].
  apply emits_only_bind; [emits_step; right; reflexivity|intros _].
  apply emits_only_bind; [emits_step|intros reply].
  destruct (py_in "Success" reply);
    (apply emits_only_bind; [emits_step; exact I|intros _; emits_step]).
Qed.

End NotifierFacts.

(** C5. Whatever the configuration, the host and the peer, a dispatch
    runs [say] on nothing but the fixed sentence around the last six
    characters of the alert id, sends nothing but the login block and
    the Originate block carrying that sentence, and on the simulated
    path logs that sentence as the message; and two dispatches for
    alerts with the same alert id, whatever their patient tokens, do
    and return exactly the same. *)
Theorem voice_message_ignores_patient `{PyRuntime} (self : VoIPNotifier)
    (h : Host) (alert : AlertData) :
  Forall (announces_only self (alert_id alert))
    (journal (snd (notify_voice self h alert (wire_of h))))
  /\ (ami_available self = false ->
      In (Log INFO ("   💬 Message: " +:+ voice_sentence (alert_id alert)) None)
        (journal (snd (notify_voice self h alert (wire_of h)))))
  /\ (forall alert', alert_id alert' = alert_id alert ->
        notify_voice self h alert' (wire_of h)
        = notify_voice self h alert (wire_of h)).
Proof.
  split; [|split].
  - destruct (ami_available self) eqn:Hami.
    + apply protocol_emits_only; [exact Hami|constructor].
    + unfold notify_voice. rewrite Hami. cbn [negb].
      apply simulate_emits_only; [intros; exact I|reflexivity|constructor].
  - intros Hami. unfold notify_voice. rewrite Hami. cbn [negb].
    unfold _simulate_voice_alert, voice_sentence.
    set (message := "High-risk cardiac score for case "
                     +:+ last_chars 6 (alert_id alert)
                     +:+ ". Check your secure portal.").
    unfold try_except, bind, emit, ret, raise, record_action, wire_of.
    cbn [journal fst snd app pending_sends pending_recvs].
    destruct (String.eqb (platform_system h) "Darwin").
    + destruct (say_error h) as [[]|];
        cbn [journal fst snd app pending_sends pending_recvs];
        right; right; left; reflexivity.
    + cbn [journal fst snd app pending_sends pending_recvs].
      right. right. left. reflexivity.
  - intros alert' Hid. apply notify_voice_reads_alert_id. exact Hid.
Qed.

(** C9, as stated, fails: with no setting present the call is
    simulated, and on macOS a [say] that raises an exception outside
    the three tolerated ones makes it return false. *)
Lemma simulated_dispatch_can_return_false :
  fst (VoIPNotifier_init ∅) = Returned bare_notifier
  /\ fst (notify_voice bare_notifier (mac_host (Some OtherError))
            fixture_alert (wire_of (mac_host (Some OtherError))))
     = Returned false.
Proof. vm_compute. split; reflexivity. Qed.

(** C9, amended. When any of host, user, secret or destination number
    is absent (or empty), every call is simulated: it performs no
    socket operation, raises nothing, and returns true unless, on
    macOS, running [say] raises an exception other than
    CalledProcessError, TimeoutExpired and FileNotFoundError, in which
    case it returns false. *)
Theorem incomplete_configuration_simulates `{PyRuntime}
    (env : gmap string string) (self : VoIPNotifier) (h : Host)
    (alert : AlertData) :
  fst (VoIPNotifier_init env) = Returned self ->
  truthy_opt (getenv env "ASTERISK_HOST") = false
  \/ truthy_opt (getenv env "ASTERISK_USER") = false
  \/ truthy_opt (getenv env "ASTERISK_PASS") = false
  \/ truthy_opt (getenv env "ALERT_CALL_NUMBER") = false ->
  Forall (fun a => is_socket_action a = false)
    (journal (snd (notify_voice self h alert (wire_of h))))
  /\ returns (fst (notify_voice self h alert (wire_of h)))
  /\ fst (notify_voice self h alert (wire_of h))
     = Returned (negb (simulation_breaks h)).
Proof.
  intros Hinit Hmissing.
  assert (Hami : ami_available self = false).
  { unfold VoIPNotifier_init in Hinit.
    destruct (py_int (getenv_default env "ASTERISK_PORT" "5038"));
      [|discriminate].
    simpl in Hinit. injection Hinit as <-. simpl.
    destruct Hmissing as [Hm|[Hm|[Hm|Hm]]]; rewrite Hm;
      rewrite ?andb_false_r; reflexivity. }
  split; [|split].
  - unfold notify_voice. rewrite Hami. cbn [negb].
    apply simulate_emits_only; [reflexivity|reflexivity|constructor].
  - apply notify_voice_returns.
  - unfold notify_voice. rewrite Hami. cbn [negb].
    unfold _simulate_voice_alert, simulation_breaks.
    unfold try_except, bind, emit, ret, raise.
    cbn [fst snd andb].
    destruct (String.eqb (platform_system h) "Darwin"); [|reflexivity].
    destruct (say_error h) as [[]|]; reflexivity.
Qed.

Lemma incomplete_configuration_simulates_witness :
  fst (notify_voice bare_notifier (mac_host (Some TimeoutExpired))
         fixture_alert (wire_of (mac_host (Some TimeoutExpired))))
  = Returned true.
Proof.
  apply (incomplete_configuration_simulates ∅ bare_notifier
           (mac_host (Some TimeoutExpired)) fixture_alert).
  - reflexivity.
  - left. reflexivity.
Defined.

(** ** The protocol path, step by step *)

Section ProtocolFacts.
Context `{PyRuntime}.

Lemma read_ami_response_frame (w : Wire) (frame : string)
    (rest : list recv_result) :
  recv_loop "" (pending_recvs w) = (Returned frame, rest) ->
  _read_ami_response w
  = (Returned (decode_ignore frame),
     {| pending_sends := pending_sends w;
        pending_recvs := rest;
        journal := journal w |}).
Proof. intros Hr. unfold _read_ami_response. rewrite Hr. reflexivity. Qed.

Lemma sock_send_succeeds (data : string) (w : Wire) :
  hd None (pending_sends w) = None ->
  sock_send data w
  = (Returned tt,
     {| pending_sends := tl (pending_sends w);
        pending_recvs := pending_recvs w;
        journal := journal w ++ [SockSend data] |}).
Proof.
  intros Hhd. unfold sock_send.
  destruct (pending_sends w) as [|[e|] rest]; simpl in *;
    try discriminate; reflexivity.
Qed.

(** The whole call when the banner and the login go through and the
    third frame lacks the marker. *)
Lemma notify_voice_originate_refused (self : VoIPNotifier) (h : Host)
    (alert : AlertData) (banner login reply : string)
    (rest1 rest2 rest3 : list recv_result) :
  ami_available self = true ->
  connect_error (peer h) = None ->
  hd None (send_errors (peer h)) = None ->
  hd None (tl (send_errors (peer h))) = None ->
  recv_loop "" (recv_script (peer h)) = (Returned banner, rest1) ->
  String.prefix "Asterisk" (decode_ignore banner) = true ->
  recv_loop "" rest1 = (Returned login, rest2) ->
  py_in "Success" (decode_ignore login) = true ->
  recv_loop "" rest2 = (Returned reply, rest3) ->
  py_in "Success" (decode_ignore reply) = false ->
  notify_voice self h alert (wire_of h)
  = (Returned false,
     {| pending_sends := tl (tl (send_errors (peer h)));
        pending_recvs := rest3;
        journal :=
          [ SockOpen;
            SockConnect (fmt_opt (asterisk_host self)) (asterisk_port self);
            SockSend (login_block self);
            SockSend (originate_block self (voice_sentence (alert_id alert)));
            Log ERROR ("AMI Originate failed: " +:+ decode_ignore reply) None;
            SockClose ] |}).
Proof.
  intros Hami Hconn Hs1 Hs2 Hbanner Hprefix Hlogin Hok Hreply Hno.
  unfold notify_voice. rewrite Hami. cbn [negb].
  unfold try_except, try_finally.
  unfold bind at 1. unfold emit at 1. unfold wire_of, record_action.
  cbn [journal pending_sends pending_recvs app].
  unfold bind at 1. unfold sock_connect. rewrite Hconn.
  unfold record_action. cbn [journal pending_sends pending_recvs app].
  unfold bind at 1.
  rewrite (read_ami_response_frame _ banner rest1) by exact Hbanner.
  cbn [journal pending_sends pending_recvs].
  unfold bind at 1. rewrite Hprefix. cbn [negb]. unfold ret at 1.
  unfold bind at 1. rewrite sock_send_succeeds by exact Hs1.
  cbn [journal pending_sends pending_recvs app].
  unfold bind at 1.
  rewrite (read_ami_response_frame _ login rest2) by exact Hlogin.
  cbn [journal pending_sends pending_recvs].
  unfold bind at 1. rewrite Hok. cbn [negb]. unfold ret at 1.
  unfold bind at 1. rewrite sock_send_succeeds by exact Hs2.
  cbn [journal pending_sends pending_recvs app].
  unfold bind at 1.
  rewrite (read_ami_response_frame _ reply rest3) by exact Hreply.
  cbn [journal pending_sends pending_recvs].
  rewrite Hno. unfold bind, emit, ret, record_action.
  cbn [journal pending_sends pending_recvs app].
  reflexivity.
Qed.

End ProtocolFacts.

(** C8. With the four settings present, a peer that accepts the
    connection, greets with the protocol identifier, answers the login
    with the success marker and answers the Originate request with a
    frame that lacks it makes [notify_voice] return false without
    raising, after closing the socket; and the handler's dispatch call
    leaves the store, with every alert record and cooldown entry in
    it, as it was. *)
Theorem originate_refusal_returns_false `{PyRuntime} (self : VoIPNotifier)
    (h : Host) (alert : AlertData) (banner login reply : string)
    (rest1 rest2 rest3 : list recv_result) (p : Process) :
  ami_available self = true ->
  connect_error (peer h) = None ->
  hd None (send_errors (peer h)) = None ->
  hd None (tl (send_errors (peer h))) = None ->
  recv_loop "" (recv_script (peer h)) = (Returned banner, rest1) ->
  String.prefix "Asterisk" (decode_ignore banner) = true ->
  recv_loop "" rest1 = (Returned login, rest2) ->
  py_in "Success" (decode_ignore login) = true ->
  recv_loop "" rest2 = (Returned reply, rest3) ->
  py_in "Success" (decode_ignore reply) = false ->
  fst (notify_voice self h alert (wire_of h)) = Returned false
  /\ last (journal (snd (notify_voice self h alert (wire_of h))))
     = Some SockClose
  /\ fst (call_notify_voice self h alert p) = Returned false
  /\ storage (snd (call_notify_voice self h alert p)) = storage p
  /\ (forall i, alert_entry (storage (snd (call_notify_voice self h alert p))) i
                = alert_entry (storage p) i)
  /\ (forall t, cooldown_entry (storage (snd (call_notify_voice self h alert p))) t
                = cooldown_entry (storage p) t).
Proof.
  intros Hami Hconn Hs1 Hs2 Hbanner Hprefix Hlogin Hok Hreply Hno.
  pose proof (notify_voice_originate_refused self h alert banner login reply
                rest1 rest2 rest3 Hami Hconn Hs1 Hs2 Hbanner Hprefix Hlogin
                Hok Hreply Hno) as Hrun.
  unfold call_notify_voice. rewrite Hrun. cbn [fst snd journal storage].
  repeat split; reflexivity.
Qed.

Lemma originate_refusal_returns_false_witness :
  fst (notify_voice ami_notifier (linux_host (ami_peer "Response: Error"))
         fixture_alert (wire_of (linux_host (ami_peer "Response: Error"))))
  = Returned false.
Proof.
  apply (originate_refusal_returns_false ami_notifier
           (linux_host (ami_peer "Response: Error")) fixture_alert
           ("Asterisk Call Manager/5.0" +:+ CRLF +:+ CRLF +:+ CRLF)
           ("Response: Success" +:+ CRLF +:+ CRLF)
           ("Response: Error" +:+ CRLF +:+ CRLF)
           [Chunk ("Response: Success" +:+ CRLF +:+ CRLF);
            Chunk ("Response: Error" +:+ CRLF +:+ CRLF)]
           [Chunk ("Response: Error" +:+ CRLF +:+ CRLF)]
           []
           {| storage := fallback_store; history := [] |});
    reflexivity.
Defined.

(** ** The request handler *)

Section HandlerFacts.
Context `{PyRuntime}.
Variable env : gmap string string.
Variable self : VoIPNotifier.

Lemma call_notify_voice_run (h : Host) (alert : AlertData) (p : Process) :
  exists (b : bool) (did : list action),
    call_notify_voice self h alert p
    = (Returned b,
       {| storage := storage p;
          history := history p ++ [CallNotifyVoice alert did (Returned b)] |}).
Proof.
  unfold call_notify_voice.
  destruct (notify_voice_returns self h alert (wire_of h)) as [b Hb].
  destruct (notify_voice self h alert (wire_of h)) as [o w].
  simpl in Hb. subst o. exists b, (journal w). reflexivity.
Qed.

(** An approved decision: the three calls, in order, then the
    response. *)
Lemma score_patient_approved (w : Surroundings) (request : ScoreRequest)
    (p : Process) (risk_prob : float) (factors : list Factor) :
  scorer w (features request) = Returned (risk_prob, factors) ->
  fst (should_alert env (clock_check w) (link_check w) risk_prob
         (patient_ref_token request) (storage p)) = Returned true ->
  let alert :=
    {| alert_id := "alrt_" +:+ String.substring 0 8 (uuid_hex w);
       patient_token := patient_ref_token request;
       risk := risk_prob;
       top_factors := factors;
       timestamp := isoformat (clock_stamp w) |} in
  exists (b : bool) (did : list action),
    score_patient env self w request p
    = (Returned {| resp_risk := risk_prob;
                   resp_top_factors := factors;
                   alerted := true;
                   resp_alert_id := Some (alert_id alert) |},
       {| storage :=
            snd (set_cooldown (clock_cooldown w) (link_cooldown w)
                   (patient_ref_token request)
                   (snd (save_alert (link_save w) alert (storage p))));
          history :=
            history p
            ++ [CallSaveAlert alert;
                CallSetCooldown (patient_ref_token request);
                CallNotifyVoice alert did (Returned b)] |}).
Proof.
  intros Hscore Hdec alert.
  pose proof (should_alert_state env (clock_check w) (link_check w)
                risk_prob (patient_ref_token request) (storage p)) as Hst.
  pose proof (save_alert_returns (link_save w) alert (storage p)) as Hsave.
  pose proof (set_cooldown_returns (clock_cooldown w) (link_cooldown w)
                (patient_ref_token request)
                (snd (save_alert (link_save w) alert (storage p)))) as Hset.
  destruct (call_notify_voice_run (host w) alert
              {| storage :=
                   snd (set_cooldown (clock_cooldown w) (link_cooldown w)
                          (patient_ref_token request)
                          (snd (save_alert (link_save w) alert (storage p))));
                 history :=
                   ((history p ++ []) ++ [CallSaveAlert alert])
                   ++ [CallSetCooldown (patient_ref_token request)] |})
    as (b & did & Hcall).
  exists b, did.
  unfold score_patient, try_except.
  unfold bind at 1. unfold lift_outcome. rewrite Hscore. cbn [fst snd].
  unfold bind at 1. unfold on_storage at 1.
  destruct (should_alert env (clock_check w) (link_check w) risk_prob
              (patient_ref_token request) (storage p)) as [o s1].
  simpl in Hdec, Hst. subst o s1.
  fold alert.
  unfold bind at 1. unfold on_storage at 1. cbn [storage history].
  destruct (save_alert (link_save w) alert (storage p)) as [o2 s2].
  simpl in Hsave, Hset, Hcall |- *. subst o2.
  unfold bind at 1. unfold on_storage at 1. cbn [storage history].
  destruct (set_cooldown (clock_cooldown w) (link_cooldown w)
              (patient_ref_token request) s2) as [o3 s3].
  simpl in Hset, Hcall |- *. subst o3.
  unfold bind at 1. rewrite Hcall. unfold ret.
  rewrite app_nil_r, <- !app_assoc. reflexivity.
Qed.

(** A suppressed decision: no call, the store as it was. *)
Lemma score_patient_suppressed (w : Surroundings) (request : ScoreRequest)
    (p : Process) (risk_prob : float) (factors : list Factor) :
  scorer w (features request) = Returned (risk_prob, factors) ->
  fst (should_alert env (clock_check w) (link_check w) risk_prob
         (patient_ref_token request) (storage p)) = Returned false ->
  score_patient env self w request p
  = (Returned {| resp_risk := risk_prob;
                 resp_top_factors := factors;
                 alerted := false;
                 resp_alert_id := None |},
     {| storage := storage p; history := history p |}).
Proof.
  intros Hscore Hdec.
  pose proof (should_alert_state env (clock_check w) (link_check w)
                risk_prob (patient_ref_token request) (storage p)) as Hst.
  unfold score_patient, try_except.
  unfold bind at 1. unfold lift_outcome. rewrite Hscore. cbn [fst snd].
  unfold bind at 1. unfold on_storage at 1.
  destruct (should_alert env (clock_check w) (link_check w) risk_prob
              (patient_ref_token request) (storage p)) as [o s1].
  simpl in Hdec, Hst. subst o s1.
  unfold ret. rewrite app_nil_r. reflexivity.
Qed.

End HandlerFacts.

(** C6. When the decision of a scoring request is true, the handler
    calls [save_alert], then [set_cooldown] for the request's token,
    then [notify_voice] for the same alert, in that order and nothing
    else, and the store the dispatch meets holds both writes. When the
    decision is false it makes none of the three calls and leaves the
    store as it was. *)
Theorem score_patient_writes_before_dispatch `{PyRuntime}
    (env : gmap string string) (self : VoIPNotifier) (w : Surroundings)
    (request : ScoreRequest) (p : Process) (risk_prob : float)
    (factors : list Factor) :
  scorer w (features request) = Returned (risk_prob, factors) ->
  (fst (should_alert env (clock_check w) (link_check w) risk_prob
          (patient_ref_token request) (storage p)) = Returned true ->
   exists (alert : AlertData) (did : list action) (b : bool)
          (resp : ScoreResponse),
     patient_token alert = patient_ref_token request
     /\ score_patient env self w request p
        = (Returned resp,
           {| storage :=
                snd (set_cooldown (clock_cooldown w) (link_cooldown w)
                       (patient_ref_token request)
                       (snd (save_alert (link_save w) alert (storage p))));
              history :=
                history p
                ++ [CallSaveAlert alert;
                    CallSetCooldown (patient_ref_token request);
                    CallNotifyVoice alert did (Returned b)] |})
     /\ alerted resp = true
     /\ resp_alert_id resp = Some (alert_id alert))
  /\ (fst (should_alert env (clock_check w) (link_check w) risk_prob
             (patient_ref_token request) (storage p)) = Returned false ->
      exists resp : ScoreResponse,
        score_patient env self w request p = (Returned resp, p)
        /\ alerted resp = false
        /\ resp_alert_id resp = None).
Proof.
  intros Hscore. split; intros Hdec.
  - destruct (score_patient_approved env self w request p risk_prob factors
                Hscore Hdec) as (b & did & Hrun).
    eexists _, did, b, _.
    split; [|split; [exact Hrun|split; reflexivity]].
    reflexivity.
  - rewrite (score_patient_suppressed env self w request p risk_prob factors
               Hscore Hdec).
    destruct p as [st hist]. eexists.
    split; [reflexivity|split; reflexivity].
Qed.

Lemma score_patient_writes_before_dispatch_witness :
  exists (alert : AlertData) (did : list action) (b : bool)
         (resp : ScoreResponse),
    patient_token alert = "test_patient_123"
    /\ score_patient ∅ bare_notifier
         (fixture_surroundings 0 (linux_host silent_peer))
         fixture_request fresh_process
       = (Returned resp,
          {| storage :=
               snd (set_cooldown 2 Up "test_patient_123"
                      (snd (save_alert Up alert fallback_store)));
             history :=
               [CallSaveAlert alert;
                CallSetCooldown "test_patient_123";
                CallNotifyVoice alert did (Returned b)] |})
    /\ alerted resp = true
    /\ resp_alert_id resp = Some (alert_id alert).
Proof.
  destruct (score_patient_writes_before_dispatch ∅ bare_notifier
              (fixture_surroundings 0 (linux_host silent_peer))
              fixture_request fresh_process 0.92%float
              (top_factors fixture_alert) eq_refl) as [Happroved _].
  apply Happroved. reflexivity.
Defined.

(** ** End to end *)

(** Risk 0.92 against the default threshold with no earlier alert: the
    alert is triggered, the record is kept with its three factors in
    order, the cooldown is set and the dispatch is made. *)
Example first_alert_is_triggered :
  let r := score_patient ∅ bare_notifier
             (fixture_surroundings 0 (linux_host silent_peer))
             fixture_request fresh_process in
  option_map alerted
    (match fst r with Returned resp => Some resp | Raised _ => None end)
  = Some true
  /\ option_map (fun a => List.map feature (top_factors a))
       (memory_store (storage (snd r)) !! "alrt_1a2b3c4d")
     = Some ["age"; "cp"; "oldpeak"]
  /\ cooldowns (storage (snd r)) !! "test_patient_123" = Some 2
  /\ length (history (snd r)) = 3%nat.
Proof. vm_compute. repeat split; reflexivity. Qed.

(** The same patient five minutes later, inside the thirty-minute
    window: no alert, no new record, no dispatch. *)
Example second_alert_is_suppressed :
  let r1 := score_patient ∅ bare_notifier
              (fixture_surroundings 0 (linux_host silent_peer))
              fixture_request fresh_process in
  let r2 := score_patient ∅ bare_notifier
              (fixture_surroundings (5 * minute) (linux_host silent_peer))
              fixture_request (snd r1) in
  option_map alerted
    (match fst r2 with Returned resp => Some resp | Raised _ => None end)
  = Some false
  /\ storage (snd r2) = storage (snd r1)
  /\ history (snd r2) = history (snd r1).
Proof. vm_compute. repeat split; reflexivity. Qed.

(** * Further properties of the code *)

(** ** The store: missing keys, upserts, the fallback mode *)

Section StoreMore.
Context `{PyRuntime}.
Variable env : gmap string string.

Lemma save_alert_alert_entry (lk : link) (alert : AlertData) (s : Storage)
    (id : string) :
  id <> alert_id alert ->
  alert_entry (snd (save_alert lk alert s)) id = alert_entry s id.
Proof.
  intros Hne. unfold alert_entry.
  rewrite (save_alert_memory_store lk alert s id Hne).
  rewrite save_alert_redis_get; [reflexivity|].
  intros Heq. apply alert_key_inj in Heq. congruence.
Qed.

Lemma set_cooldown_alert_entry (now : Z) (lk : link) (tok : string)
    (s : Storage) (id : string) :
  alert_entry (snd (set_cooldown now lk tok s)) id = alert_entry s id.
Proof.
  unfold alert_entry.
  rewrite set_cooldown_memory_store, set_cooldown_redis_get; [reflexivity|].
  apply alert_key_not_cooldown_key.
Qed.

Lemma run_calls_alert_entry (cs : list store_call) (s : Storage)
    (id : string) :
  Forall (fun c => ~ saves_alert_of id c) cs ->
  alert_entry (run_calls env cs s) id = alert_entry s id.
Proof.
  intros Hcs. revert s.
  induction Hcs as [|c cs Hc _ IH]; intros s; simpl; [reflexivity|].
  rewrite IH.
  destruct c as [now lk t|now lk t|lk a|lk i]; simpl in *.
  - rewrite in_cooldown_state. reflexivity.
  - apply set_cooldown_alert_entry.
  - apply save_alert_alert_entry. congruence.
  - rewrite get_alert_state. reflexivity.
Qed.

(** [get_alert] looks at nothing but the id's entry. *)
Lemma get_alert_absent (lk : link) (id : string) (s : Storage) :
  alert_entry s id = (None, None) ->
  fst (get_alert lk id s) = Returned None.
Proof.
  unfold alert_entry, redis_get, get_alert. intros He.
  destruct (redis_client s) as [db|].
  - injection He as He1 He2.
    destruct lk; [rewrite He1|rewrite He2]; reflexivity.
  - injection He as He2. rewrite He2. reflexivity.
Qed.

Lemma run_calls_client (cs : list store_call) (s : Storage) :
  redis_client (run_calls env cs s) = None <-> redis_client s = None.
Proof.
  revert s. induction cs as [|c cs IH]; intros s; simpl; [reflexivity|].
  rewrite IH. apply run_call_client.
Qed.

Lemma without_client_link_is_ignored (s : Storage) (now : Z) (tok : string)
    (alert : AlertData) (id : string) :
  redis_client s = None ->
  in_cooldown env now Up tok s = in_cooldown env now Down tok s
  /\ set_cooldown now Up tok s = set_cooldown now Down tok s
  /\ save_alert Up alert s = save_alert Down alert s
  /\ get_alert Up id s = get_alert Down id s.
Proof.
  intros Hc. unfold in_cooldown, set_cooldown, save_alert, get_alert.
  rewrite Hc. repeat split; reflexivity.
Qed.

End StoreMore.

(** X1. An id that has no entry and is not saved since reads as absent:
    [get_alert] returns [None], whether or not the server answers. *)
Theorem get_alert_of_unsaved_id `{PyRuntime} (env : gmap string string)
    (lk : link) (id : string) (s : Storage) (cs : list store_call) :
  alert_entry s id = (None, None) ->
  Forall (fun c => ~ saves_alert_of id c) cs ->
  fst (get_alert lk id (run_calls env cs s)) = Returned None.
Proof.
  intros Hnone Hcs. apply get_alert_absent.
  rewrite (run_calls_alert_entry env cs s id Hcs). exact Hnone.
Qed.

Lemma get_alert_of_unsaved_id_witness :
  fst (get_alert Up "nonexistent"
         (run_calls ∅
            [DoSaveAlert Up fixture_alert;
             DoSetCooldown 0 Down "test_patient_123"]
            durable_store))
  = Returned None.
Proof.
  apply (get_alert_of_unsaved_id ∅ Up "nonexistent" durable_store).
  - reflexivity.
  - repeat constructor; simpl; [discriminate|tauto].
Defined.

(** X2. [save_alert] is an upsert on the alert id: saving a record over
    one with the same id leaves the store exactly as saving it alone
    does; in particular saving the same record twice is saving it
    once. *)
Theorem save_alert_overwrites `{PyRuntime} (lk : link) (r r' : AlertData)
    (s : Storage) :
  alert_id r' = alert_id r ->
  snd (save_alert lk r' (snd (save_alert lk r s))) = snd (save_alert lk r' s).
Proof.
  intros Hid. unfold save_alert.
  destruct (redis_client s) as [db|] eqn:Hc; [destruct lk|];
    simpl; rewrite ?Hc; simpl; unfold with_redis, with_memory_store;
    simpl; rewrite ?Hc, Hid, insert_insert_eq; reflexivity.
Qed.

Lemma save_alert_overwrites_witness :
  snd (save_alert Up fixture_alert
         (snd (save_alert Up fixture_alert durable_store)))
  = snd (save_alert Up fixture_alert durable_store).
Proof.
  apply (save_alert_overwrites Up fixture_alert fixture_alert durable_store).
  reflexivity.
Defined.

(** X3. A store constructed without REDIS_URL (or with an empty one),
    or whose connection probe raised, has no client after any sequence
    of calls, and each of its operations does the same whether or not
    the server would answer: it never goes back to the server. *)
Theorem fallback_mode_is_permanent `{PyRuntime} (env0 env : gmap string string)
    (probe : outcome (gmap string string)) (cs : list store_call)
    (now : Z) (tok : string) (alert : AlertData) (id : string) :
  truthy_opt (getenv env0 "REDIS_URL") = false
  \/ (exists e, probe = Raised e) ->
  redis_client (run_calls env cs (Storage_init env0 probe)) = None
  /\ in_cooldown env now Up tok (run_calls env cs (Storage_init env0 probe))
     = in_cooldown env now Down tok (run_calls env cs (Storage_init env0 probe))
  /\ set_cooldown now Up tok (run_calls env cs (Storage_init env0 probe))
     = set_cooldown now Down tok (run_calls env cs (Storage_init env0 probe))
  /\ save_alert Up alert (run_calls env cs (Storage_init env0 probe))
     = save_alert Down alert (run_calls env cs (Storage_init env0 probe))
  /\ get_alert Up id (run_calls env cs (Storage_init env0 probe))
     = get_alert Down id (run_calls env cs (Storage_init env0 probe)).
Proof.
  intros Hdown.
  assert (Hnone : redis_client (run_calls env cs (Storage_init env0 probe))
                  = None).
  { apply run_calls_client. unfold Storage_init. simpl.
    destruct Hdown as [Hurl|[e ->]].
    - rewrite Hurl. reflexivity.
    - destruct (truthy_opt (getenv env0 "REDIS_URL")); reflexivity. }
  split; [exact Hnone|].
  apply without_client_link_is_ignored. exact Hnone.
Qed.

Lemma fallback_mode_is_permanent_witness :
  redis_client
    (run_calls ∅
       [DoSaveAlert Up fixture_alert; DoSetCooldown 0 Up "test_patient_123"]
       (Storage_init (<["REDIS_URL" := "redis://localhost:6379"]> ∅)
          (Raised ConnectionError)))
  = None.
Proof.
  apply (fallback_mode_is_permanent
           (<["REDIS_URL" := "redis://localhost:6379"]> ∅) ∅
           (Raised ConnectionError)
           [DoSaveAlert Up fixture_alert; DoSetCooldown 0 Up "test_patient_123"]
           0 "test_patient_123" fixture_alert "test_alert_12345678").
  right. exists ConnectionError. reflexivity.
Defined.

(** X4. A token without a cooldown entry is not in cooldown: for a risk
    at or above the threshold the decision is true, whether or not the
    server answers and whatever window is configured, as long as
    COOLDOWN_MINUTES is read by [int]. *)
Theorem should_alert_without_entry `{PyRuntime} (env : gmap string string)
    (now : Z) (lk : link) (risk threshold : float) (tok : string)
    (s : Storage) (minutes : Z) :
  risk_threshold env = Some threshold ->
  (threshold <=? risk)%float = true ->
  cooldown_minutes env = Some minutes ->
  cooldown_entry s tok = (None, None) ->
  should_alert env now lk risk tok s = (Returned true, s).
Proof.
  intros Hth Hge Hm He. apply float_leb_not_ltb in Hge.
  unfold should_alert. rewrite Hth, Hge.
  unfold in_cooldown. rewrite Hm.
  unfold cooldown_entry, redis_get in He.
  destruct (redis_client s) as [db|].
  - injection He as He1 He2. destruct lk; [rewrite He1|]; reflexivity.
  - injection He as He2. rewrite He2. reflexivity.
Qed.

Lemma should_alert_without_entry_witness :
  should_alert (<["COOLDOWN_MINUTES" := "1440000000000"]> ∅) 0 Up
    0.92%float "test_patient_123" fallback_store
  = (Returned true, fallback_store).
Proof.
  apply (should_alert_without_entry
           (<["COOLDOWN_MINUTES" := "1440000000000"]> ∅) 0 Up 0.92%float
           0.80%float "test_patient_123" fallback_store 1440000000000);
    reflexivity.
Defined.

(** X5. With a COOLDOWN_MINUTES that [int] rejects, a decision for a
    risk strictly below the threshold is still false, and any other
    decision raises ValueError, whatever the store holds. *)
Theorem should_alert_with_malformed_window `{PyRuntime}
    (env : gmap string string) (now : Z) (lk : link) (risk threshold : float)
    (tok : string) (s : Storage) :
  risk_threshold env = Some threshold ->
  cooldown_minutes env = None ->
  fst (should_alert env now lk risk tok s)
  = if (risk <? threshold)%float then Returned false else Raised ValueError.
Proof.
  intros Hth Hm. unfold should_alert, in_cooldown. rewrite Hth, Hm.
  destruct (risk <? threshold)%float; reflexivity.
Qed.

Lemma should_alert_with_malformed_window_witness :
  fst (should_alert (<["COOLDOWN_MINUTES" := "thirty"]> ∅) 0 Up 0.92%float
         "test_patient_123" fallback_store)
  = Raised ValueError
  /\ fst (should_alert (<["COOLDOWN_MINUTES" := "thirty"]> ∅) 0 Up 0.5%float
            "test_patient_123" fallback_store)
     = Returned false.
Proof.
  split.
  - apply (should_alert_with_malformed_window
             (<["COOLDOWN_MINUTES" := "thirty"]> ∅) 0 Up 0.92%float
             0.80%float "test_patient_123" fallback_store); reflexivity.
  - apply (should_alert_with_malformed_window
             (<["COOLDOWN_MINUTES" := "thirty"]> ∅) 0 Up 0.5%float
             0.80%float "test_patient_123" fallback_store); reflexivity.
Defined.

(** ** Strings *)

Lemma string_app_assoc (a b c : string) : (a +:+ b) +:+ c = a +:+ (b +:+ c).
Proof.
  induction a as [|ch a IH]; [reflexivity|].
  change (String ch ((a +:+ b) +:+ c) = String ch (a +:+ (b +:+ c))).
  rewrite IH. reflexivity.
Qed.

Lemma string_app_empty_r (a : string) : a +:+ "" = a.
Proof.
  induction a as [|ch a IH]; [reflexivity|].
  change (String ch (a +:+ "") = String ch a). rewrite IH. reflexivity.
Qed.

Lemma truthy_false_empty (s : string) : truthy s = false -> s = "".
Proof. destruct s; [reflexivity|discriminate]. Qed.

Lemma drop_chars_suffix (k : nat) (s : string) :
  exists pre, s = pre +:+ drop_chars k s
              /\ String.length (drop_chars k s) = (String.length s - k)%nat.
Proof.
  revert s. induction k as [|k IH]; intros s.
  - exists "". split; [reflexivity|]. simpl. lia.
  - destruct s as [|ch s]; simpl.
    + exists "". split; reflexivity.
    + destruct (IH s) as (pre & Hpre & Hlen).
      exists (String ch pre). split; [|exact Hlen].
      change (String ch s = String ch (pre +:+ drop_chars k s)).
      rewrite <- Hpre. reflexivity.
Qed.

(** X6. [s[-n:]] is a suffix of [s] with [min n (len s)] characters: the
    short id spoken for an alert never has more than six characters of
    the alert id, and they are its last ones. *)
Theorem last_chars_is_short_suffix (n : nat) (s : string) :
  String.length (last_chars n s) = Nat.min n (String.length s)
  /\ exists pre, s = pre +:+ last_chars n s.
Proof.
  unfold last_chars.
  destruct (drop_chars_suffix (String.length s - n) s) as (pre & Hpre & Hlen).
  split; [lia|]. exists pre. exact Hpre.
Qed.

(** ** Reading a frame *)

(** X7. When the read loop returns a frame, the frame is the buffer
    followed by the chunks it consumed, in order; it consumed non-empty
    chunks and, if it stopped on the peer closing, one empty chunk;
    nothing of the rest of the peer's script is touched; unless the
    peer closed, the frame contains the terminator; and no shorter run
    of chunks already contained it. *)
Theorem recv_loop_frame (script : list recv_result) (acc frame : string)
    (rest : list recv_result) :
  recv_loop acc script = (Returned frame, rest) ->
  exists (chunks : list string) (closed : bool),
    script = List.map Chunk chunks
             ++ (if closed then [Chunk ""] else []) ++ rest
    /\ frame = acc +:+ join chunks
    /\ Forall (fun c => truthy c = true) chunks
    /\ (closed = false ->
        chunks <> [] /\ py_in (CRLF +:+ CRLF) frame = true)
    /\ (forall n, (1 <= n)%nat ->
          (n < length chunks)%nat \/ (closed = true /\ (n <= length chunks)%nat) ->
          py_in (CRLF +:+ CRLF) (acc +:+ join (firstn n chunks)) = false).
Proof.
  revert acc. induction script as [|r script IH]; intros acc Hrun.
  - discriminate.
  - destruct r as [data|e]; [|discriminate]. simpl in Hrun.
    destruct (truthy data) eqn:Hdata.
    + destruct (py_in (CRLF +:+ CRLF) (acc +:+ data)) eqn:Hterm.
      * injection Hrun as <- <-. exists [data], false.
        split; [reflexivity|]. split; [|split; [|split]].
        -- simpl. rewrite string_app_empty_r. reflexivity.
        -- constructor; [exact Hdata|constructor].
        -- intros _. split; [discriminate|]. exact Hterm.
        -- intros n Hn [Hlt|[Hc _]]; [simpl in Hlt; lia|discriminate].
      * destruct (IH (acc +:+ data) Hrun)
          as (chunks & closed & Hscript & Hframe & Hne & Hstop & Hmin).
        exists (data :: chunks), closed.
        split; [|split; [|split; [|split]]].
        -- simpl. rewrite Hscript. reflexivity.
        -- simpl. rewrite <- string_app_assoc. exact Hframe.
        -- constructor; assumption.
        -- intros Hc. split; [discriminate|]. apply Hstop. exact Hc.
        -- intros n Hn Hbound. destruct n as [|n]; [lia|].
           simpl. rewrite <- string_app_assoc.
           destruct n as [|n].
           ++ simpl. rewrite string_app_empty_r. exact Hterm.
           ++ apply Hmin; [lia|]. simpl in Hbound.
              destruct Hbound as [Hlt|[Hc Hle]];
                [left; lia|right; split; [exact Hc|lia]].
    + apply truthy_false_empty in Hdata. subst data.
      injection Hrun as <- <-. exists [], true.
      split; [reflexivity|]. split; [|split; [|split]].
      * simpl. rewrite string_app_empty_r. reflexivity.
      * constructor.
      * discriminate.
      * intros n Hn [Hlt|[_ Hle]]; simpl in *; lia.
Qed.

Lemma recv_loop_frame_witness :
  exists (chunks : list string) (closed : bool),
    recv_script (ami_peer "Response: Error")
    = List.map Chunk chunks
      ++ (if closed then [Chunk ""] else [])
      ++ [Chunk ("Response: Success" +:+ CRLF +:+ CRLF);
          Chunk ("Response: Error" +:+ CRLF +:+ CRLF)]
    /\ "Asterisk Call Manager/5.0" +:+ CRLF +:+ CRLF +:+ CRLF
       = "" +:+ join chunks
    /\ Forall (fun c => truthy c = true) chunks
    /\ (closed = false ->
        chunks <> []
        /\ py_in (CRLF +:+ CRLF)
             ("Asterisk Call Manager/5.0" +:+ CRLF +:+ CRLF +:+ CRLF) = true)
    /\ (forall n, (1 <= n)%nat ->
          (n < length chunks)%nat \/ (closed = true /\ (n <= length chunks)%nat) ->
          py_in (CRLF +:+ CRLF) ("" +:+ join (firstn n chunks)) = false).
Proof.
  apply (recv_loop_frame (recv_script (ami_peer "Response: Error")) ""
           ("Asterisk Call Manager/5.0" +:+ CRLF +:+ CRLF +:+ CRLF)
           [Chunk ("Response: Success" +:+ CRLF +:+ CRLF);
            Chunk ("Response: Error" +:+ CRLF +:+ CRLF)]).
  reflexivity.
Defined.

(** ** The protocol path, for every peer *)

Section SessionFacts.
Variable P : action -> Prop.

Lemma appends_only_ret {A : Type} (a : A) : appends_only P (ret a).
Proof.
  intros w. exists []. split; [symmetry; apply app_nil_r|constructor].
Qed.

Lemma appends_only_raise {A : Type} (e : exn) :
  appends_only P (@raise Wire A e).
Proof.
  intros w. exists []. split; [symmetry; apply app_nil_r|constructor].
Qed.

Lemma appends_only_bind {A B : Type} (c : StateExn Wire A)
    (k : A -> StateExn Wire B) :
  appends_only P c -> (forall a, appends_only P (k a)) ->
  appends_only P (bind c k).
Proof.
  intros Hc Hk w. unfold bind. destruct (Hc w) as (l1 & H1 & HP1).
  destruct (c w) as [[a|e] w']; simpl in *.
  - destruct (Hk a w') as (l2 & H2 & HP2). exists (l1 ++ l2).
    split; [rewrite H2, H1, app_assoc; reflexivity|].
    apply Forall_app. split; assumption.
  - exists l1. split; assumption.
Qed.

Lemma appends_only_emit (a : action) : P a -> appends_only P (emit a).
Proof.
  intros Ha w. exists [a]. split; [reflexivity|].
  constructor; [exact Ha|constructor].
Qed.

Lemma appends_only_sock_connect (h : Host) (host : string) (port : Z) :
  P (SockConnect host port) -> appends_only P (sock_connect h host port).
Proof.
  intros Ha w. exists [SockConnect host port]. unfold sock_connect.
  split; [destruct (connect_error (peer h)); reflexivity|].
  constructor; [exact Ha|constructor].
Qed.

Lemma appends_only_sock_send (data : string) :
  P (SockSend data) -> appends_only P (sock_send data).
Proof.
  intros Ha w. exists [SockSend data]. unfold sock_send.
  split; [destruct (pending_sends w) as [|[e|] rest]; reflexivity|].
  constructor; [exact Ha|constructor].
Qed.

Lemma appends_only_read `{PyRuntime} : appends_only P _read_ami_response.
Proof.
  intros w. exists []. unfold _read_ami_response.
  destruct (recv_loop "" (pending_recvs w)) as [o rest]. simpl.
  split; [symmetry; apply app_nil_r|constructor].
Qed.

End SessionFacts.

Ltac appends_leaf :=
  first [ apply appends_only_ret | apply appends_only_raise ].

Ltac inside_session_tac := split; discriminate.

(** X8. On the protocol path, for every peer and every way the exchange
    ends (success, refusal, timeout, a raised error), the journal is:
    the socket opened, then the session, in which the socket is neither
    opened again nor closed, then the socket closed, then nothing but
    log records. *)
Theorem protocol_socket_is_always_closed `{PyRuntime} (self : VoIPNotifier)
    (h : Host) (alert : AlertData) :
  ami_available self = true ->
  exists (session tail : list action),
    journal (snd (notify_voice self h alert (wire_of h)))
    = SockOpen :: session ++ SockClose :: tail
    /\ Forall inside_session session
    /\ Forall (fun a => is_socket_action a = false) tail.
Proof.
  intros Hami. unfold notify_voice. rewrite Hami. cbn [negb].
  match goal with
  | |- context [try_finally ?b ?c] =>
      assert (Hbody : appends_only inside_session b)
  end.
  { apply appends_only_bind;
      [apply appends_only_sock_connect; inside_session_tac|intros _].
    apply appends_only_bind; [apply appends_only_read|intros banner].
    apply appends_only_bind;
      [destruct (negb (String.prefix "Asterisk" banner)); appends_leaf
      |intros _].
    apply appends_only_bind;
      [apply appends_only_sock_send; inside_session_tac|intros _].
    apply appends_only_bind; [apply appends_only_read|intros login].
    apply appends_only_bind;
      [destruct (negb (py_in "Success" login)); appends_leaf|intros _].
    apply appends_only_bind;
      [apply appends_only_sock_send; inside_session_tac|intros _].
    apply appends_only_bind; [apply appends_only_read|intros reply].
    destruct (py_in "Success" reply);
      (apply appends_only_bind;
         [apply appends_only_emit; inside_session_tac
         |intros _; appends_leaf]). }
  unfold try_except. unfold bind at 1. unfold emit at 1.
  cbn [fst snd]. unfold try_finally.
  destruct (Hbody (record_action SockOpen (wire_of h)))
    as (session & Hj & Hsession).
  match goal with
  | |- context [match ?b (record_action SockOpen (wire_of h)) with _ => _ end] =>
      destruct (b (record_action SockOpen (wire_of h))) as [[r|e] w']
  end; simpl in Hj; cbn [fst snd].
  - exists session, []. simpl. rewrite Hj. simpl.
    split; [reflexivity|]. split; [exact Hsession|constructor].
  - exists session, [Log ERROR "Voice alert failed: " (Some e)].
    unfold bind, emit, ret, record_action. simpl. rewrite Hj. simpl.
    rewrite <- app_assoc. simpl.
    split; [reflexivity|]. split; [exact Hsession|].
    constructor; [reflexivity|constructor].
Qed.

Lemma protocol_socket_is_always_closed_witness :
  exists (session tail : list action),
    journal (snd (notify_voice ami_notifier (linux_host silent_peer)
                    fixture_alert (wire_of (linux_host silent_peer))))
    = SockOpen :: session ++ SockClose :: tail
    /\ Forall inside_session session
    /\ Forall (fun a => is_socket_action a = false) tail.
Proof.
  apply (protocol_socket_is_always_closed ami_notifier
           (linux_host silent_peer) fixture_alert).
  reflexivity.
Defined.

Ltac protocol_case :=
  cbv beta iota zeta;
  cbn [fst snd pending_sends pending_recvs journal negb andb is_none hd tl];
  match goal with
  | |- context [connect_error ?p] => destruct (connect_error p)
  | |- context [send_errors ?p] => destruct (send_errors p) as [|[?|] [|[?|] ?]]
  | |- context [String.prefix ?a ?b] => destruct (String.prefix a b)
  | |- context [py_in ?a ?b] => destruct (py_in a b)
  | |- context [recv_loop ?a ?l] => destruct (recv_loop a l) as [[?|?] ?]
  end.

(** X9. On the protocol path [notify_voice] returns true exactly when
    the peer accepts the connection, greets with the protocol
    identifier, lets both requests be sent and answers each with the
    success marker; on every other course (refused connection, wrong
    banner, timeout, closed connection, failed login, failed send,
    refused call) it returns false. It never raises. *)
Theorem notify_voice_succeeds_iff_peer_grants `{PyRuntime}
    (self : VoIPNotifier) (h : Host) (alert : AlertData) :
  ami_available self = true ->
  fst (notify_voice self h alert (wire_of h))
  = Returned (peer_grants (peer h)).
Proof.
  intros Hami. unfold notify_voice. rewrite Hami. cbn [negb].
  unfold peer_grants, try_except, try_finally, bind, emit, ret, raise,
    sock_connect, sock_send, _read_ami_response, record_action, wire_of.
  repeat protocol_case; reflexivity.
Qed.

Lemma notify_voice_succeeds_iff_peer_grants_witness :
  fst (notify_voice ami_notifier (linux_host (ami_peer "Response: Success"))
         fixture_alert
         (wire_of (linux_host (ami_peer "Response: Success"))))
  = Returned true.
Proof.
  rewrite (notify_voice_succeeds_iff_peer_grants ami_notifier
             (linux_host (ami_peer "Response: Success")) fixture_alert)
    by reflexivity.
  reflexivity.
Defined.

(** ** The handler: errors, repeated requests, the case page *)

Section HandlerMore.
Context `{PyRuntime}.
Variable env : gmap string string.
Variable self : VoIPNotifier.

Lemma save_alert_without_client (lk : link) (alert : AlertData)
    (s : Storage) :
  redis_client s = None ->
  redis_client (snd (save_alert lk alert s)) = None
  /\ memory_store (snd (save_alert lk alert s))
     = <[alert_id alert := alert]> (memory_store s).
Proof.
  intros Hc. unfold save_alert. rewrite Hc. simpl. split; [exact Hc|reflexivity].
Qed.

Lemma get_alert_without_client (lk : link) (id : string) (s : Storage) :
  redis_client s = None ->
  get_alert lk id s = (Returned (memory_store s !! id), s).
Proof. intros Hc. unfold get_alert. rewrite Hc. reflexivity. Qed.

Lemma score_patient_scorer_raises (w : Surroundings) (request : ScoreRequest)
    (p : Process) (e : exn) :
  scorer w (features request) = Raised e ->
  score_patient env self w request p = (Raised (HTTPException 500), p).
Proof.
  intros Hscore. unfold score_patient, try_except.
  unfold bind at 1. unfold lift_outcome. rewrite Hscore. reflexivity.
Qed.

Lemma score_patient_decision_raises (w : Surroundings)
    (request : ScoreRequest) (p : Process) (risk_prob : float)
    (factors : list Factor) (e : exn) :
  scorer w (features request) = Returned (risk_prob, factors) ->
  fst (should_alert env (clock_check w) (link_check w) risk_prob
         (patient_ref_token request) (storage p)) = Raised e ->
  score_patient env self w request p = (Raised (HTTPException 500), p).
Proof.
  intros Hscore Hdec.
  pose proof (should_alert_state env (clock_check w) (link_check w)
                risk_prob (patient_ref_token request) (storage p)) as Hst.
  unfold score_patient, try_except.
  unfold bind at 1. unfold lift_outcome. rewrite Hscore. cbn [fst snd].
  unfold bind at 1. unfold on_storage at 1.
  destruct (should_alert env (clock_check w) (link_check w) risk_prob
              (patient_ref_token request) (storage p)) as [o s1].
  simpl in Hdec, Hst. subst o s1.
  unfold raise. rewrite app_nil_r. destruct p; reflexivity.
Qed.

End HandlerMore.

(** X10. The only exception the [/score] handler lets out is
    HTTPException 500, and when it does, nothing was saved, no cooldown
    was set and nothing was dispatched: the process is as it was. *)
Theorem score_patient_fails_clean `{PyRuntime} (env : gmap string string)
    (self : VoIPNotifier) (w : Surroundings) (request : ScoreRequest)
    (p p' : Process) (e : exn) :
  score_patient env self w request p = (Raised e, p') ->
  e = HTTPException 500 /\ p' = p.
Proof.
  intros Hrun.
  destruct (scorer w (features request)) as [[risk_prob factors]|e0] eqn:Hscore.
  - destruct (fst (should_alert env (clock_check w) (link_check w) risk_prob
                     (patient_ref_token request) (storage p)))
      as [[|]|e1] eqn:Hdec.
    + destruct (score_patient_approved env self w request p risk_prob factors
                  Hscore Hdec) as (b & did & Hok).
      rewrite Hok in Hrun. discriminate.
    + rewrite (score_patient_suppressed env self w request p risk_prob factors
                 Hscore Hdec) in Hrun. discriminate.
    + rewrite (score_patient_decision_raises env self w request p risk_prob
                 factors e1 Hscore Hdec) in Hrun.
      injection Hrun as <- <-. split; reflexivity.
  - rewrite (score_patient_scorer_raises env self w request p e0 Hscore)
      in Hrun.
    injection Hrun as <- <-. split; reflexivity.
Qed.

Lemma score_patient_fails_clean_witness :
  score_patient (<["RISK_THRESHOLD" := "high"]> ∅) bare_notifier
    (fixture_surroundings 0 (linux_host silent_peer)) fixture_request
    fresh_process
  = (Raised (HTTPException 500), fresh_process)
  /\ (HTTPException 500 = HTTPException 500 /\ fresh_process = fresh_process).
Proof.
  split; [reflexivity|].
  apply (score_patient_fails_clean (<["RISK_THRESHOLD" := "high"]> ∅)
           bare_notifier (fixture_surroundings 0 (linux_host silent_peer))
           fixture_request fresh_process fresh_process (HTTPException 500)).
  reflexivity.
Defined.

(** X11. On a store without a client, once a request for a token was
    approved, a later request for the same token whose check falls
    inside the window after that cooldown was set is suppressed,
    whatever its risk: no alert id, nothing saved, nothing dispatched,
    the process left as the first request left it. *)
Theorem repeated_request_is_suppressed `{PyRuntime} (env : gmap string string)
    (self : VoIPNotifier) (w1 w2 : Surroundings)
    (request1 request2 : ScoreRequest) (p : Process)
    (risk1 risk2 : float) (factors1 factors2 : list Factor)
    (threshold : float) (minutes window : Z) :
  redis_client (storage p) = None ->
  risk_threshold env = Some threshold ->
  cooldown_minutes env = Some minutes ->
  timedelta_minutes minutes = Some window ->
  scorer w1 (features request1) = Returned (risk1, factors1) ->
  fst (should_alert env (clock_check w1) (link_check w1) risk1
         (patient_ref_token request1) (storage p)) = Returned true ->
  patient_ref_token request2 = patient_ref_token request1 ->
  scorer w2 (features request2) = Returned (risk2, factors2) ->
  clock_check w2 - clock_cooldown w1 < window ->
  score_patient env self w2 request2
    (snd (score_patient env self w1 request1 p))
  = (Returned {| resp_risk := risk2;
                 resp_top_factors := factors2;
                 alerted := false;
                 resp_alert_id := None |},
     snd (score_patient env self w1 request1 p)).
Proof.
  intros Hc Hth Hm Hw Hs1 Hd1 Htok Hs2 Hin.
  destruct (score_patient_approved env self w1 request1 p risk1 factors1
              Hs1 Hd1) as (b & did & Hrun1).
  rewrite Hrun1. cbn [snd].
  set (alert := {| alert_id := "alrt_" +:+ String.substring 0 8 (uuid_hex w1);
                   patient_token := patient_ref_token request1;
                   risk := risk1;
                   top_factors := factors1;
                   timestamp := isoformat (clock_stamp w1) |}) in *.
  set (p1 := {| storage := _; history := _ |}).
  assert (Hdec : fst (should_alert env (clock_check w2) (link_check w2) risk2
                        (patient_ref_token request2) (storage p1))
                 = Returned false).
  { rewrite Htok. unfold p1. cbn [storage].
    destruct (save_alert_without_client (link_save w1) alert (storage p) Hc)
      as [Hc1 _].
    pose proof (in_cooldown_after_set env (clock_cooldown w1) (clock_check w2)
                  (link_cooldown w1) (link_check w2)
                  (patient_ref_token request1)
                  (snd (save_alert (link_save w1) alert (storage p)))
                  minutes window Hm Hw (or_introl Hc1)) as Hcd.
    apply Z.ltb_lt in Hin. rewrite Hin in Hcd.
    destruct (risk2 <? threshold)%float eqn:Hlt.
    - rewrite (should_alert_below env _ _ risk2 threshold _ _ Hth Hlt).
      reflexivity.
    - apply (should_alert_not_below env _ _ risk2 threshold _ _ true
               Hth Hlt Hcd). }
  rewrite (score_patient_suppressed env self w2 request2 p1 risk2 factors2
             Hs2 Hdec).
  reflexivity.
Qed.

Lemma repeated_request_is_suppressed_witness :
  score_patient ∅ bare_notifier
    (fixture_surroundings (5 * minute) (linux_host silent_peer))
    fixture_request
    (snd (score_patient ∅ bare_notifier
            (fixture_surroundings 0 (linux_host silent_peer))
            fixture_request fresh_process))
  = (Returned {| resp_risk := 0.92%float;
                 resp_top_factors := top_factors fixture_alert;
                 alerted := false;
                 resp_alert_id := None |},
     snd (score_patient ∅ bare_notifier
            (fixture_surroundings 0 (linux_host silent_peer))
            fixture_request fresh_process)).
Proof.
  apply (repeated_request_is_suppressed ∅ bare_notifier
           (fixture_surroundings 0 (linux_host silent_peer))
           (fixture_surroundings (5 * minute) (linux_host silent_peer))
           fixture_request fixture_request fresh_process
           0.92%float 0.92%float (top_factors fixture_alert)
           (top_factors fixture_alert) 0.80%float 30 (30 * minute));
    reflexivity.
Defined.

(** X12. The alert id the handler builds from a UUID of at least eight
    hexadecimal characters is spoken as characters three to eight of
    that UUID: the short id never carries the [alrt_] prefix. *)
Theorem handler_alert_short_id (hex : string) :
  (8 <= String.length hex)%nat ->
  last_chars 6 ("alrt_" +:+ String.substring 0 8 hex)
  = String.substring 2 6 hex.
Proof.
  intros Hlen.
  do 8 (destruct hex as [|? hex]; [simpl in Hlen; lia|]).
  destruct hex; reflexivity.
Qed.

Lemma handler_alert_short_id_witness :
  last_chars 6 ("alrt_" +:+ String.substring 0 8
                              "1a2b3c4d5e6f7a8b9c0d1e2f3a4b5c6d")
  = "2b3c4d".
Proof.
  apply (handler_alert_short_id "1a2b3c4d5e6f7a8b9c0d1e2f3a4b5c6d").
  simpl. lia.
Defined.

(** X13. [/case/{token}] answers 404 for an id without an entry, and
    leaves the store as it is. *)
Theorem view_case_of_unknown_id `{PyRuntime} (lk : link)
    (render : CaseContext -> outcome string) (token : string) (s : Storage) :
  alert_entry s token = (None, None) ->
  view_case lk render token s = (Raised (HTTPException 404), s).
Proof.
  intros Hnone. unfold view_case.
  pose proof (get_alert_absent lk token s Hnone) as Hget.
  pose proof (get_alert_state lk token s) as Hst.
  destruct (get_alert lk token s) as [o s']. simpl in Hget, Hst.
  subst o s'. reflexivity.
Qed.

Lemma view_case_of_unknown_id_witness :
  view_case Up (fun _ => Returned "page") "nonexistent" fallback_store
  = (Raised (HTTPException 404), fallback_store).
Proof.
  apply (view_case_of_unknown_id Up (fun _ => Returned "page") "nonexistent"
           fallback_store).
  reflexivity.
Defined.

(** X14. On a store without a client, the case page of the alert id an
    approved [/score] request answered with is rendered from that
    request's risk and factors, in their order, with the id itself as
    token and alert id. *)
Theorem case_page_shows_scored_alert `{PyRuntime} (env : gmap string string)
    (self : VoIPNotifier) (w : Surroundings) (request : ScoreRequest)
    (p : Process) (risk_prob : float) (factors : list Factor) (lk : link)
    (render : CaseContext -> outcome string) (page : string) :
  redis_client (storage p) = None ->
  scorer w (features request) = Returned (risk_prob, factors) ->
  fst (should_alert env (clock_check w) (link_check w) risk_prob
         (patient_ref_token request) (storage p)) = Returned true ->
  render {| ctx_token := "alrt_" +:+ String.substring 0 8 (uuid_hex w);
            ctx_risk := risk_prob;
            ctx_top_factors := factors;
            ctx_timestamp := isoformat (clock_stamp w);
            ctx_alerted := true;
            ctx_alert_id := "alrt_" +:+ String.substring 0 8 (uuid_hex w) |}
  = Returned page ->
  exists resp : ScoreResponse,
    fst (score_patient env self w request p) = Returned resp
    /\ resp_alert_id resp
       = Some ("alrt_" +:+ String.substring 0 8 (uuid_hex w))
    /\ fst (view_case lk render
              ("alrt_" +:+ String.substring 0 8 (uuid_hex w))
              (storage (snd (score_patient env self w request p))))
       = Returned page.
Proof.
  intros Hc Hscore Hdec Hrender.
  destruct (score_patient_approved env self w request p risk_prob factors
              Hscore Hdec) as (b & did & Hrun).
  rewrite Hrun. cbn [fst snd storage].
  eexists. split; [reflexivity|]. split; [reflexivity|].
  set (alert := {| alert_id := "alrt_" +:+ String.substring 0 8 (uuid_hex w);
                   patient_token := patient_ref_token request;
                   risk := risk_prob;
                   top_factors := factors;
                   timestamp := isoformat (clock_stamp w) |}) in *.
  destruct (save_alert_without_client (link_save w) alert (storage p) Hc)
    as [Hc1 Hmem].
  set (s2 := snd (set_cooldown (clock_cooldown w) (link_cooldown w)
                    (patient_ref_token request)
                    (snd (save_alert (link_save w) alert (storage p))))).
  assert (Hc2 : redis_client s2 = None).
  { apply (run_call_client env
             (DoSetCooldown (clock_cooldown w) (link_cooldown w)
                (patient_ref_token request))). exact Hc1. }
  unfold view_case. rewrite (get_alert_without_client _ _ s2 Hc2).
  unfold s2. rewrite set_cooldown_memory_store, Hmem.
  change (alert_id alert) with ("alrt_" +:+ String.substring 0 8 (uuid_hex w)).
  rewrite lookup_insert_eq. cbn [risk top_factors timestamp alert_id alert].
  rewrite Hrender. reflexivity.
Qed.

Lemma case_page_shows_scored_alert_witness :
  exists resp : ScoreResponse,
    fst (score_patient ∅ bare_notifier
           (fixture_surroundings 0 (linux_host silent_peer))
           fixture_request fresh_process) = Returned resp
    /\ resp_alert_id resp
       = Some ("alrt_" +:+ String.substring 0 8
                             (uuid_hex (fixture_surroundings 0
                                          (linux_host silent_peer))))
    /\ fst (view_case Up (fun ctx => Returned (ctx_alert_id ctx))
              ("alrt_" +:+ String.substring 0 8
                             (uuid_hex (fixture_surroundings 0
                                          (linux_host silent_peer))))
              (storage (snd (score_patient ∅ bare_notifier
                               (fixture_surroundings 0 (linux_host silent_peer))
                               fixture_request fresh_process))))
       = Returned "alrt_1a2b3c4d".
Proof.
  apply (case_page_shows_scored_alert ∅ bare_notifier
           (fixture_surroundings 0 (linux_host silent_peer)) fixture_request
           fresh_process 0.92%float (top_factors fixture_alert) Up
           (fun ctx => Returned (ctx_alert_id ctx)) "alrt_1a2b3c4d");
    reflexivity.
Defined.

(** ** The model and the health route *)

(** X15. After [load_model], [/health] answers with [model_loaded] true
    when the load produced an object, or failed while an earlier object
    was in place; in every other case it raises RuntimeError. It never
    answers with [model_loaded] false. *)
Theorem health_check_after_load {Model : Type}
    (loaded : outcome (option Model)) (model : option Model) :
  (forall resp model',
     health_check (snd (load_model loaded model)) = (Returned resp, model') ->
     model_loaded resp = true /\ status resp = "healthy")
  /\ fst (health_check (snd (load_model loaded model)))
     = match loaded, model with
       | Returned (Some _), _ | Raised _, Some _ =>
           Returned {| status := "healthy"; model_loaded := true |}
       | Returned None, _ | Raised _, None => Raised RuntimeError
       end.
Proof.
  split.
  - intros resp model'. unfold health_check, bind, get_model, ret, load_model.
    destruct loaded as [[m|]|e]; simpl; try discriminate.
    + intros Heq. injection Heq as <- _. split; reflexivity.
    + destruct model as [m|]; simpl; [|discriminate].
      intros Heq. injection Heq as <- _. split; reflexivity.
  - unfold health_check, bind, get_model, ret, load_model.
    destruct loaded as [[m|]|e]; simpl; try reflexivity.
    destruct model; reflexivity.
Qed.

(** ** voip_simulator.py *)

(** X16. A simulator constructed on a host has voice enabled exactly
    when the host is macOS and [which say] ran without raising; its
    [make_call] returns true whatever running [say] does, runs [say]
    (on the message it was given) exactly when voice is enabled, and
    ends by sleeping two seconds and printing that the call ended. *)
Theorem make_call_always_reports_success (h : SimHost) (self : VoIPSimulator)
    (out0 : list sim_action) (phone_number message : string) :
  VoIPSimulator_init h [] = (Returned self, out0) ->
  (voice_enabled self = true
   <-> (sim_system h = "Darwin" /\ which_error h = None))
  /\ fst (make_call self h phone_number message []) = Returned true
  /\ (In (RunCommand ["say"; "-v"; "Alex"; "-r"; "150"; message])
        (snd (make_call self h phone_number message []))
      <-> voice_enabled self = true)
  /\ (forall argv,
        In (RunCommand argv) (snd (make_call self h phone_number message [])) ->
        argv = ["say"; "-v"; "Alex"; "-r"; "150"; message])
  /\ exists before,
       snd (make_call self h phone_number message [])
       = before ++ [Sleep 2; Print "   📞 Call ended" None].
Proof.
  intros Hinit.
  assert (Hen : voice_enabled self = true
                <-> (sim_system h = "Darwin" /\ which_error h = None)).
  { unfold VoIPSimulator_init, _check_voice_capability, bind, try_except,
      sim_emit, ret, raise in Hinit.
    destruct (String.eqb_spec (sim_system h) "Darwin") as [Hsys|Hsys].
    - destruct (which_error h) as [[]|]; simpl in Hinit;
        try discriminate; injection Hinit as <- _; simpl;
        split; try discriminate; try (intros [_ Hw]; discriminate);
        intros _; split; [exact Hsys|reflexivity].
    - simpl in Hinit. injection Hinit as <- _. simpl.
      split; [discriminate|]. intros [Hs _]. contradiction. }
  split; [exact Hen|].
  unfold make_call, bind, try_except, sim_emit, ret, raise.
  destruct (voice_enabled self); cbn [fst snd app].
  - destruct (sim_say_error h) as [[]|]; cbn [fst snd app];
      (split; [reflexivity|]);
      (split; [split; [reflexivity|intros _; simpl; tauto]|]);
      (split;
         [intros argv Hin; simpl in Hin;
          repeat (destruct Hin as [Hin|Hin]; try discriminate);
          [injection Hin as <-; reflexivity|contradiction]
         |eexists; simpl;
          match goal with
          | |- ?l = _ ++ [Sleep 2; ?c] =>
              rewrite <- (firstn_skipn (length l - 2) l) at 1; reflexivity
          end]).
  - split; [reflexivity|].
    split.
    { split; [|discriminate]. simpl. intros Hin.
      repeat (destruct Hin as [Hin|Hin]; try discriminate). contradiction. }
    split.
    { intros argv Hin. simpl in Hin.
      repeat (destruct Hin as [Hin|Hin]; try discriminate). contradiction. }
    eexists. simpl.
    match goal with
    | |- ?l = _ ++ [Sleep 2; ?c] =>
        rewrite <- (firstn_skipn (length l - 2) l) at 1; reflexivity
    end.
Qed.

Lemma make_call_always_reports_success_witness :
  fst (make_call {| system := "Darwin"; voice_enabled := true |}
         (mac_sim_host None (Some OtherError)) "555-123-4567"
         "High-risk cardiac score for case ABC123. Check your secure portal."
         [])
  = Returned true.
Proof.
  apply (make_call_always_reports_success
           (mac_sim_host None (Some OtherError))
           {| system := "Darwin"; voice_enabled := true |}
           [RunCommand ["which"; "say"]] "555-123-4567"
           "High-risk cardiac score for case ABC123. Check your secure portal.").
  reflexivity.
Defined.

(** ** app/shap_explain.py *)

Lemma slice_to_firstn {A : Type} (k : Z) (l : list A) :
  exists n, slice_to k l = firstn n l /\ (0 <= k -> n = Z.to_nat k).
Proof.
  unfold slice_to. destruct (0 <=? k) eqn:Hk.
  - exists (Z.to_nat k). split; [reflexivity|]. intros _. reflexivity.
  - exists (length l - Z.to_nat (- k))%nat. split; [reflexivity|].
    intros Hpos. apply Z.leb_gt in Hk. lia.
Qed.

Lemma feature_impacts_names (names : list string) (values : list float) :
  exists n, List.map feature (feature_impacts_of names values) = firstn n names.
Proof.
  revert values. induction names as [|name names IH]; intros values.
  - exists 0%nat. reflexivity.
  - destruct values as [|value values].
    + exists 0%nat. reflexivity.
    + destruct (IH values) as [n Hn]. exists (S n). simpl.
      rewrite Hn. reflexivity.
Qed.

Lemma firstn_names_bounded (n : nat) (names : list string) :
  (length (firstn n names) <= length names)%nat
  /\ Forall (fun x => In x names) (firstn n names)
  /\ (List.NoDup names -> List.NoDup (firstn n names)).
Proof.
  split; [rewrite length_firstn; lia|]. split.
  - apply List.Forall_forall. intros x Hx.
    rewrite <- (firstn_skipn n names). apply in_or_app. left. exact Hx.
  - intros Hnd. rewrite <- (firstn_skipn n names) in Hnd.
    apply NoDup_app_remove_r in Hnd. exact Hnd.
Qed.

Section ExplainFacts.
Variable sort_by_impact_desc : list Factor -> list Factor.
Hypothesis sort_permutes :
  forall l, Permutation (sort_by_impact_desc l) l.

(** The factors of one explanation: at most [k], at most one per
    feature, each named after a feature. *)
Lemma top_factors_bounded (features : list string) (values : list float)
    (k : Z) :
  0 <= k -> List.NoDup features ->
  let result :=
    slice_to k (sort_by_impact_desc (feature_impacts_of features values)) in
  (length result <= Z.to_nat k)%nat
  /\ (length result <= length features)%nat
  /\ Forall (fun f => In (feature f) features) result
  /\ List.NoDup (List.map feature result).
Proof.
  intros Hk Hnd result.
  destruct (slice_to_firstn k
              (sort_by_impact_desc (feature_impacts_of features values)))
    as (n & Hslice & Hn).
  destruct (feature_impacts_names features values) as [m Hnames].
  destruct (firstn_names_bounded m features) as (Hlen & Hin & Hnd').
  pose proof (sort_permutes (feature_impacts_of features values)) as Hperm.
  assert (Hsorted_names :
            Permutation
              (List.map feature
                 (sort_by_impact_desc (feature_impacts_of features values)))
              (firstn m features)).
  { rewrite <- Hnames. apply Permutation_map. exact Hperm. }
  assert (Hres : List.map feature result
                 = firstn n
                     (List.map feature
                        (sort_by_impact_desc
                           (feature_impacts_of features values)))).
  { unfold result. rewrite Hslice. symmetry. apply firstn_map. }
  assert (Hlen_sorted :
            length (sort_by_impact_desc (feature_impacts_of features values))
            = length (firstn m features)).
  { rewrite <- (length_map feature). apply Permutation_length.
    exact Hsorted_names. }
  split; [|split; [|split]].
  - unfold result. rewrite Hslice, length_firstn, (Hn Hk). lia.
  - unfold result. rewrite Hslice, length_firstn. lia.
  - assert (Hall : Forall (fun x => In x features) (List.map feature result)).
    { rewrite Hres. apply List.Forall_forall. intros x Hx.
      assert (Hx' : In x (List.map feature
                            (sort_by_impact_desc
                               (feature_impacts_of features values)))).
      { rewrite <- (firstn_skipn n (List.map feature _)).
        apply in_or_app. left. exact Hx. }
      apply (Permutation_in _ Hsorted_names) in Hx'.
      rewrite List.Forall_forall in Hin. apply Hin. exact Hx'. }
    rewrite List.Forall_forall in Hall. apply List.Forall_forall. intros f Hf.
    apply Hall. apply in_map. exact Hf.
  - rewrite Hres.
    assert (Hnd_sorted :
              List.NoDup
                (List.map feature
                   (sort_by_impact_desc (feature_impacts_of features values)))).
    { apply (Permutation_NoDup (Permutation_sym Hsorted_names)).
      apply Hnd'. exact Hnd. }
    rewrite <- (firstn_skipn n (List.map feature _)) in Hnd_sorted.
    apply NoDup_app_remove_r in Hnd_sorted. exact Hnd_sorted.
Qed.

End ExplainFacts.

Lemma fixture_insert_permutes (x : Factor) (l : list Factor) :
  Permutation (fixture_insert x l) (x :: l).
Proof.
  induction l as [|y l IH]; simpl; [reflexivity|].
  destruct (impact y <? impact x)%float; [reflexivity|].
  rewrite IH. apply perm_swap.
Qed.

Lemma fixture_sort_permutes (l : list Factor) :
  Permutation (fixture_sort l) l.
Proof.
  induction l as [|x l IH]; simpl; [reflexivity|].
  rewrite fixture_insert_permutes. apply perm_skip. exact IH.
Qed.

(** X17. Whichever explainer answers (tree, linear, the model's own
    importances, or none), and as long as the library sort returns a
    rearrangement of its input, [safe_explain_top_k] with a
    non-negative [k] over distinct feature names returns at most [k]
    factors and at most one per feature, each named after a feature of
    the request. *)
Theorem safe_explain_top_k_is_bounded
    (sort_by_impact_desc : list Factor -> list Factor) (world : ShapWorld)
    (model : ModelAttrs) (features : list string) (k : Z) :
  (forall l, Permutation (sort_by_impact_desc l) l) ->
  0 <= k ->
  List.NoDup features ->
  (length (safe_explain_top_k sort_by_impact_desc world model features k)
   <= Z.to_nat k)%nat
  /\ (length (safe_explain_top_k sort_by_impact_desc world model features k)
      <= length features)%nat
  /\ Forall (fun f => In (feature f) features)
       (safe_explain_top_k sort_by_impact_desc world model features k)
  /\ List.NoDup
       (List.map feature
          (safe_explain_top_k sort_by_impact_desc world model features k)).
Proof.
  intros Hperm Hk Hnd.
  assert (Hempty : (length (@nil Factor) <= Z.to_nat k)%nat
                   /\ (length (@nil Factor) <= length features)%nat
                   /\ Forall (fun f => In (feature f) features) []
                   /\ List.NoDup (List.map feature [])).
  { simpl. repeat split; try lia; constructor. }
  assert (Hfallback :
            (length (_permutation_importance_fallback sort_by_impact_desc
                       model features k) <= Z.to_nat k)%nat
            /\ (length (_permutation_importance_fallback sort_by_impact_desc
                          model features k) <= length features)%nat
            /\ Forall (fun f => In (feature f) features)
                 (_permutation_importance_fallback sort_by_impact_desc
                    model features k)
            /\ List.NoDup
                 (List.map feature
                    (_permutation_importance_fallback sort_by_impact_desc
                       model features k))).
  { unfold _permutation_importance_fallback.
    destruct (feature_importances_ model) as [importances|]; [|exact Hempty].
    apply (top_factors_bounded sort_by_impact_desc Hperm features importances
             k Hk Hnd). }
  unfold safe_explain_top_k, explain_top_k.
  destruct (shap_importable world); [|exact Hfallback].
  destruct (dataframe_error world); [exact Hfallback|].
  destruct (has_tree_ model || has_estimators_ model).
  - destruct (tree_row world) as [row|e]; [|exact Hfallback].
    apply (top_factors_bounded sort_by_impact_desc Hperm features _ k Hk Hnd).
  - destruct (has_coef_ model); [|exact Hfallback].
    destruct (linear_row world) as [row|e]; [|exact Hfallback].
    apply (top_factors_bounded sort_by_impact_desc Hperm features _ k Hk Hnd).
Qed.

Lemma safe_explain_top_k_is_bounded_witness :
  (length (safe_explain_top_k fixture_sort no_shap forest_model
             ["age"; "sex"; "cp"; "trestbps"] 3) <= 3)%nat
  /\ List.map feature
       (safe_explain_top_k fixture_sort no_shap forest_model
          ["age"; "sex"; "cp"; "trestbps"] 3)
     = ["sex"; "cp"; "age"].
Proof.
  split; [|reflexivity].
  apply (safe_explain_top_k_is_bounded fixture_sort no_shap forest_model
           ["age"; "sex"; "cp"; "trestbps"] 3 fixture_sort_permutes).
  - lia.
  - repeat constructor; simpl; intuition discriminate.
Defined.

(** ** A complete configuration *)

(** X18. When host, user, secret and destination number are all
    present and non-empty (and the port is read by [int]), the
    notifier is constructed without the warning, with port 5038 when
    ASTERISK_PORT is unset, and every [notify_voice] call opens a
    socket and connects to the configured host and port before
    anything else: no call is simulated. *)
Theorem complete_configuration_connects `{PyRuntime}
    (env : gmap string string) (self : VoIPNotifier) (boot : list action)
    (h : Host) (alert : AlertData) (host : string) :
  VoIPNotifier_init env = (Returned self, boot) ->
  getenv env "ASTERISK_HOST" = Some host ->
  truthy host = true ->
  truthy_opt (getenv env "ASTERISK_USER") = true ->
  truthy_opt (getenv env "ASTERISK_PASS") = true ->
  truthy_opt (getenv env "ALERT_CALL_NUMBER") = true ->
  boot = []
  /\ (env !! "ASTERISK_PORT" = None ->
      py_int "5038" = Some 5038 -> asterisk_port self = 5038)
  /\ exists rest,
       journal (snd (notify_voice self h alert (wire_of h)))
       = SockOpen :: SockConnect host (asterisk_port self) :: rest.
Proof.
  intros Hinit Hhost Hth Hu Hp Hn.
  unfold VoIPNotifier_init in Hinit. rewrite Hhost, Hu, Hp, Hn in Hinit.
  simpl truthy_opt in Hinit. rewrite Hth in Hinit. cbn [andb] in Hinit.
  destruct (py_int (getenv_default env "ASTERISK_PORT" "5038")) as [port|]
    eqn:Hport; [|discriminate].
  injection Hinit as <- <-.
  split; [reflexivity|]. split.
  { intros Hunset H5038. cbn [asterisk_port].
    unfold getenv_default in Hport. rewrite Hunset in Hport. simpl in Hport.
    congruence. }
  unfold notify_voice. cbn [ami_available negb asterisk_host asterisk_port
                            fmt_opt default].
  match goal with
  | |- context [bind (sock_connect h ?x port) ?k] =>
      set (session := k);
      assert (Hrest : forall u, appends_only (fun _ => True) (session u))
  end.
  { intros u. unfold session.
    apply appends_only_bind; [apply appends_only_read|intros banner].
    apply appends_only_bind;
      [destruct (negb (String.prefix "Asterisk" banner)); appends_leaf
      |intros _].
    apply appends_only_bind;
      [apply appends_only_sock_send; exact I|intros _].
    apply appends_only_bind; [apply appends_only_read|intros login].
    apply appends_only_bind;
      [destruct (negb (py_in "Success" login)); appends_leaf|intros _].
    apply appends_only_bind;
      [apply appends_only_sock_send; exact I|intros _].
    apply appends_only_bind; [apply appends_only_read|intros reply].
    destruct (py_in "Success" reply);
      (apply appends_only_bind;
         [apply appends_only_emit; exact I|intros _; appends_leaf]). }
  clearbody session.
  unfold try_except, try_finally, bind, emit, ret, sock_connect.
  cbn [fst snd].
  destruct (connect_error (peer h)) as [e|].
  - eexists. unfold record_action, wire_of. simpl. reflexivity.
  - destruct (Hrest tt (record_action (SockConnect (id host) port)
                          (record_action SockOpen (wire_of h))))
      as (added & Hj & _).
    destruct (session tt (record_action (SockConnect (id host) port)
                            (record_action SockOpen (wire_of h))))
      as [[r|e] w'];
      simpl in Hj; unfold record_action; simpl; rewrite Hj; simpl;
      eexists; reflexivity.
Qed.

Lemma complete_configuration_connects_witness :
  exists rest,
    journal (snd (notify_voice ami_notifier (linux_host silent_peer)
                    fixture_alert (wire_of (linux_host silent_peer))))
    = SockOpen :: SockConnect "pbx.example" 5038 :: rest.
Proof.
  apply (complete_configuration_connects
           (<["ASTERISK_HOST" := "pbx.example"]>
              (<["ASTERISK_USER" := "admin"]>
                 (<["ASTERISK_PASS" := "secret"]>
                    (<["ALERT_CALL_NUMBER" := "1001"]> ∅))))
           ami_notifier [] (linux_host silent_peer) fixture_alert
           "pbx.example");
    reflexivity.
Defined.
